(** * tbmc_prospecting: the winner-page scraper, embedded and verified

    A shallow embedding of [tbmc_prospecting.py].  The file follows the
    program: text and the regular expressions the program searches with,
    the parsed document tree, the extractor, then the fetcher, the CSV
    sink and [main] over an explicit world (files, standard output, the
    network and the clock).

    Conventions of the embedding:
    - a Python [str] is a [string] whose characters are code points below
      256; the character classes below are Python's on that range;
    - [re] and [bs4] are libraries: their documented behaviour is modelled
      by the matcher of module [Re] and the tree functions of module
      [Soup]; the HTML parser itself is a parameter;
    - a CSV file is the sequence of its rows, a row the sequence of its
      fields. *)

From Stdlib Require Import String Ascii NArith.
From stdpp Require Import gmap strings list fin_maps.

Local Open Scope string_scope.
Local Open Scope list_scope.
Local Open Scope nat_scope.

(** ** Characters and strings *)

Module Str.

Definition code (c : ascii) : N := N_of_ascii c.

Definition between (lo hi : N) (c : ascii) : bool :=
  (N.leb lo (code c) && N.leb (code c) hi)%bool.

(** [str.isspace] on one character: TAB..CR, FS..US, SPACE, NEL, NBSP. *)
Definition is_space (c : ascii) : bool :=
  (between 9 13 c || between 28 32 c || N.eqb (code c) 133
   || N.eqb (code c) 160)%bool.

(** [\d] of a [str] pattern: the decimal digits. *)
Definition is_digit (c : ascii) : bool := between 48 57 c.

(** [\w] of a [str] pattern: alphanumeric characters and the underscore. *)
Definition is_word (c : ascii) : bool :=
  (between 48 57 c || between 65 90 c || N.eqb (code c) 95
   || between 97 122 c
   || N.eqb (code c) 170 || between 178 179 c || N.eqb (code c) 181
   || between 185 186 c || between 188 190 c
   || between 192 214 c || between 216 246 c || between 248 255 c)%bool.

(** Simple lower-casing of one character, as [re.I] applies it. *)
Definition lower (c : ascii) : ascii :=
  if (between 65 90 c || between 192 214 c || between 216 222 c)%bool
  then ascii_of_N (code c + 32) else c.

Fixpoint lstrip (s : string) : string :=
  match s with
  | String c t => if is_space c then lstrip t else s
  | EmptyString => EmptyString
  end.

Fixpoint rstrip (s : string) : string :=
  match s with
  | String c t =>
      match rstrip t with
      | EmptyString => if is_space c then EmptyString else String c EmptyString
      | t' => String c t'
      end
  | EmptyString => EmptyString
  end.

(** [s.strip()] *)
Definition strip (s : string) : string := rstrip (lstrip s).

(** [len(s)] *)
Definition len (s : string) : nat := String.length s.

(** Truth value of a [str]: non-empty. *)
Definition truthy (s : string) : bool :=
  match s with EmptyString => false | _ => true end.

(** [sep.join(l)] *)
Fixpoint join (sep : string) (l : list string) : string :=
  match l with
  | [] => EmptyString
  | [x] => x
  | x :: t => x +:+ sep +:+ join sep t
  end.

(** Equality of two strings up to case. *)
Fixpoint ieq (a b : string) : bool :=
  match a, b with
  | EmptyString, EmptyString => true
  | String x a', String y b' => Ascii.eqb (lower x) (lower y) && ieq a' b'
  | _, _ => false
  end.

(** [w] occurs in [s], compared case-insensitively. *)
Definition icontains (w s : string) : Prop :=
  ∃ pre mid post, s = pre +:+ mid +:+ post ∧ ieq mid w = true.

End Str.

(** ** Regular expressions: the part of [re] the program uses *)

Module Re.

Inductive cls := CWord | CDigit.

Definition in_cls (p : cls) (c : ascii) : bool :=
  match p with CWord => Str.is_word c | CDigit => Str.is_digit c end.

(** Patterns.  Every pattern of the program is compiled with [re.I], so a
    literal matches up to case. *)
Inductive regex :=
| Eps
| Lit (c : ascii)
| Class (p : cls)
| Boundary
| Seq (r1 r2 : regex)
| Alt (r1 r2 : regex)
| Opt (r : regex)
| Plus (p : cls)
| Group (i : nat) (r : regex).

(** A position in the text being searched: the character before it, the
    text from it on, its index, and the groups closed so far. *)
Record mstate := MState {
  before : option ascii;
  rest : string;
  pos : nat;
  groups : list (nat * (nat * nat))
}.

Definition advance (c : ascii) (t : string) (s : mstate) : mstate :=
  MState (Some c) t (S (pos s)) (groups s).

Definition set_group (i : nat) (span : nat * nat) (s : mstate) : mstate :=
  MState (before s) (rest s) (pos s) ((i, span) :: groups s).

Definition word_at (o : option ascii) : bool :=
  match o with Some c => Str.is_word c | None => false end.

Definition next_char (s : string) : option ascii :=
  match s with String c _ => Some c | EmptyString => None end.

(** Greedy repetition of a class, zero or more times, giving back one
    character at a time when the continuation fails. *)
Fixpoint star (p : cls) (k : mstate → option mstate)
    (b : option ascii) (t : string) (n : nat) (g : list (nat * (nat * nat)))
    : option mstate :=
  match t with
  | String c t' =>
      if in_cls p c then
        match star p k (Some c) t' (S n) g with
        | Some m => Some m
        | None => k (MState b t n g)
        end
      else k (MState b t n g)
  | EmptyString => k (MState b t n g)
  end.

(** The backtracking matcher, in continuation-passing style: alternatives
    are tried left to right, repetitions are greedy. *)
Fixpoint mt (r : regex) (k : mstate → option mstate) (s : mstate)
    : option mstate :=
  match r with
  | Eps => k s
  | Lit c =>
      match rest s with
      | String d t =>
          if Ascii.eqb (Str.lower d) (Str.lower c) then k (advance d t s)
          else None
      | EmptyString => None
      end
  | Class p =>
      match rest s with
      | String d t => if in_cls p d then k (advance d t s) else None
      | EmptyString => None
      end
  | Boundary =>
      if xorb (word_at (before s)) (word_at (next_char (rest s)))
      then k s else None
  | Seq r1 r2 => mt r1 (mt r2 k) s
  | Alt r1 r2 =>
      match mt r1 k s with
      | Some m => Some m
      | None => mt r2 k s
      end
  | Opt r1 =>
      match mt r1 k s with
      | Some m => Some m
      | None => k s
      end
  | Plus p =>
      match rest s with
      | String d t =>
          if in_cls p d then star p k (Some d) t (S (pos s)) (groups s)
          else None
      | EmptyString => None
      end
  | Group i r1 => mt r1 (λ s', k (set_group i (pos s, pos s') s')) s
  end.

(** A match object. *)
Record match_ := Match {
  m_text : string;
  m_start : nat;
  m_end : nat;
  m_groups : list (nat * (nat * nat))
}.

Fixpoint lookup_group (i : nat) (g : list (nat * (nat * nat)))
    : option (nat * nat) :=
  match g with
  | [] => None
  | (j, span) :: g' => if Nat.eqb i j then Some span else lookup_group i g'
  end.

(** [m.group(i)]: [None] when the group took no part in the match. *)
Definition group (m : match_) (i : nat) : option string :=
  match i with
  | O => Some (substring (m_start m) (m_end m - m_start m) (m_text m))
  | _ =>
      match lookup_group i (m_groups m) with
      | Some (a, b) => Some (substring a (b - a) (m_text m))
      | None => None
      end
  end.

(** Scan for the leftmost position where the pattern matches. *)
Fixpoint search_from (r : regex) (text : string)
    (b : option ascii) (t : string) (n : nat) : option match_ :=
  match mt r Some (MState b t n []) with
  | Some m => Some (Match text n (pos m) (groups m))
  | None =>
      match t with
      | String c t' => search_from r text (Some c) t' (S n)
      | EmptyString => None
      end
  end.

(** [re.search(r, text, re.I)] *)
Definition search (r : regex) (text : string) : option match_ :=
  search_from r text None text 0.

Definition test (r : regex) (text : string) : bool :=
  match search r text with Some _ => true | None => false end.

(** [re.search(r, text, re.I).group(i)], when there is a match. *)
Definition group_of (r : regex) (text : string) (i : nat) : option string :=
  m ← search r text; group m i.

(** Building patterns. *)
Fixpoint lits (w : string) : regex :=
  match w with
  | EmptyString => Eps
  | String c t => Seq (Lit c) (lits t)
  end.

Fixpoint times (n : nat) (r : regex) : regex :=
  match n with
  | O => Eps
  | S n' => Seq r (times n' r)
  end.

(** [w1|w2|...|wn] *)
Fixpoint alts (w : string) (ws : list string) : regex :=
  match ws with
  | [] => lits w
  | w' :: ws' => Alt (lits w) (alts w' ws')
  end.

End Re.

(** ** What a match is, declaratively *)

Module ReSpec.
Import Re.

(** Zero or more characters of a class, from one position to another. *)
Inductive run (p : cls) : mstate → mstate → Prop :=
| run_stop s : run p s s
| run_more s d t s' :
    rest s = String d t → in_cls p d = true →
    run p (advance d t s) s' → run p s s'.

(** [matches r s s']: the pattern [r] matches the text between the
    positions [s] and [s']. *)
Fixpoint matches (r : regex) (s s' : mstate) : Prop :=
  match r with
  | Eps => s' = s
  | Lit c =>
      ∃ d t, rest s = String d t ∧ Str.lower d = Str.lower c
             ∧ s' = advance d t s
  | Class p =>
      ∃ d t, rest s = String d t ∧ in_cls p d = true ∧ s' = advance d t s
  | Boundary =>
      xorb (word_at (before s)) (word_at (next_char (rest s))) = true
      ∧ s' = s
  | Seq r1 r2 => ∃ s1, matches r1 s s1 ∧ matches r2 s1 s'
  | Alt r1 r2 => matches r1 s s' ∨ matches r2 s s'
  | Opt r1 => matches r1 s s' ∨ s' = s
  | Plus p =>
      ∃ d t, rest s = String d t ∧ in_cls p d = true
             ∧ run p (advance d t s) s'
  | Group i r1 =>
      ∃ s1, matches r1 s s1 ∧ s' = set_group i (pos s, pos s1) s1
  end.

(** The least number of characters a match of [r] takes. *)
Fixpoint minlen (r : regex) : nat :=
  match r with
  | Eps | Boundary => 0
  | Lit _ | Class _ | Plus _ => 1
  | Seq r1 r2 => minlen r1 + minlen r2
  | Alt r1 r2 => minlen r1 `min` minlen r2
  | Opt _ => 0
  | Group _ r1 => minlen r1
  end.

(** The character before the position reached after [pre]. *)
Fixpoint last_char (b : option ascii) (pre : string) : option ascii :=
  match pre with
  | EmptyString => b
  | String c pre' => last_char (Some c) pre'
  end.

End ReSpec.

(** ** The document tree: the part of [bs4] the program uses *)

Module Soup.

(** A parsed document: tags with their name, their [class] attribute
    (absent, or the list of its tokens) and their contents, and plain text
    nodes ([NavigableString]). *)
#[local] Set Warnings "-register-all".
Inductive node :=
| Tag (name : string) (class_ : option (list string)) (contents : list node)
| Text (s : string).

(** [n.get_text()]: the text of all text nodes below [n], concatenated. *)
Fixpoint get_text (n : node) : string :=
  match n with
  | Text s => s
  | Tag _ _ cs =>
      (fix go (l : list node) : string :=
         match l with
         | [] => EmptyString
         | c :: l' => get_text c +:+ go l'
         end) cs
  end.

(** [n.string]: the text of a node that has a single text descendant
    reached through only children, [None] otherwise. *)
Fixpoint string_ (n : node) : option string :=
  match n with
  | Text s => Some s
  | Tag _ _ [c] => string_ c
  | Tag _ _ _ => None
  end.

(** An element together with what the tree says around it. *)
Record loc := Loc {
  elem : node;
  next_siblings : list node;   (* the nodes after it under its parent *)
  parents : list node          (* its ancestors, nearest first *)
}.

(** [n.descendants], in document order. *)
Fixpoint descendants (anc : list node) (n : node) : list loc :=
  match n with
  | Text _ => []
  | Tag _ _ cs =>
      (fix go (l : list node) : list loc :=
         match l with
         | [] => []
         | c :: l' =>
             (Loc c l' (n :: anc) :: descendants (n :: anc) c ++ go l')%list
         end) cs
  end.

Definition has_name (names : list string) (n : node) : bool :=
  match n with
  | Tag name _ _ => existsb (String.eqb name) names
  | Text _ => false
  end.

Definition limited {A} (limit : option nat) (l : list A) : list A :=
  match limit with Some n => take n l | None => l end.

(** [root.find_all(names, ..., limit=limit)] with a further test [flt] on
    the tag. *)
Definition find_all (names : list string) (flt : node → bool)
    (limit : option nat) (root : node) : list loc :=
  limited limit
    (filter (λ l, has_name names (elem l) && flt (elem l) = true)
            (descendants [] root)).

(** The test of [class_=r]: some token of the class attribute matches, or
    the tokens joined by spaces do. *)
Definition class_matches (r : Re.regex) (n : node) : bool :=
  match n with
  | Tag _ (Some toks) _ =>
      existsb (Re.test r) toks || Re.test r (Str.join " " toks)
  | _ => false
  end.

(** The test of [string=r]: [n.string] exists and matches. *)
Definition string_matches (r : Re.regex) (n : node) : bool :=
  match string_ n with
  | Some s => Re.test r s
  | None => false
  end.

(** [l.find_parent(names)] *)
Definition find_parent (names : list string) (l : loc) : option node :=
  List.find (has_name names) (parents l).

End Soup.

(** ** Python values and dictionaries *)

(** A value that is a [str] or [None]. *)
Abbreviation pyval := (option string).

Definition truth (v : pyval) : bool :=
  match v with Some s => Str.truthy s | None => false end.

(** A dictionary as the program has them: [str] keys bound to a [str] or
    to [None], and possibly the key [None] bound to a list, which is how
    [csv.DictReader] stores the surplus fields of a long row. *)
Record pydict := Dict {
  items : gmap string (option string);
  surplus : option (list string)
}.

(** [d[k] = v] for a [str] key. *)
Definition setitem (k : string) (v : pyval) (d : pydict) : pydict :=
  Dict (<[k := v]> (items d)) (surplus d).

(** ** The extractor *)

Module Extractor.
Import Re Soup.

(** [r'winner|award|prize'] *)
Definition winner_re : regex := alts "winner" ["award"; "prize"].

(** [r'winner|award|prize|about'] *)
Definition not_name_re : regex := alts "winner" ["award"; "prize"; "about"].

(** [r'university|college|school'] *)
Definition school_re : regex := alts "university" ["college"; "school"].

(** [r'(freshman|sophomore|junior|senior|\b\d{4}\b)'] *)
Definition year_re : regex :=
  Group 1
    (Alt (lits "freshman")
    (Alt (lits "sophomore")
    (Alt (lits "junior")
    (Alt (lits "senior")
         (Seq Boundary (Seq (times 4 (Class CDigit)) Boundary)))))).

(** [r'major(ing)? in (\w+)|(\w+) major'] *)
Definition major_re : regex :=
  Alt (Seq (lits "major")
      (Seq (Opt (Group 1 (lits "ing")))
      (Seq (lits " in ") (Group 2 (Plus CWord)))))
      (Seq (Group 3 (Plus CWord)) (lits " major")).

Definition containers : list string := ["div"; "section"; "article"].

(** Lines 47-55: the regions to look into. *)
Definition winner_sections (soup : node) : list node :=
  let winner_sections :=
    elem <$> find_all containers (class_matches winner_re) None soup in
  match winner_sections with
  | [] =>
      let headings :=
        find_all ["h1"; "h2"; "h3"; "h4"] (string_matches winner_re) None soup in
      omap (find_parent containers) headings
  | _ => winner_sections
  end.

(** The three fields the scan of the siblings fills in. *)
Record fields := Fields {
  school : string;
  year : string;
  major : pyval
}.

(** Line 75: the text of a sibling; on a tag and on a text node alike this
    is its text, stripped. *)
Definition sibling_text (elem : node) : string := Str.strip (get_text elem).

(** Line 89: [group(2) if group(2) else group(3)] *)
Definition major_of (major_match : match_) : pyval :=
  if truth (group major_match 2) then group major_match 2
  else group major_match 3.

(** Lines 77-89: what one sibling, of text [text], does to the fields. *)
Definition step_on_text (f : fields) (text : string) : fields :=
  let school' :=
    if test school_re text && negb (Str.truthy (school f)) then text
    else school f in
  let year' :=
    match search year_re text with
    | Some year_match =>
        if negb (Str.truthy (year f)) then default "" (group year_match 0)
        else year f
    | None => year f
    end in
  let major' :=
    match search major_re text with
    | Some major_match =>
        if negb (truth (major f)) then major_of major_match else major f
    | None => major f
    end in
  Fields school' year' major'.

(** Lines 75-89: one iteration over a following sibling. *)
Definition scan_step (f : fields) (elem : node) : fields :=
  step_on_text f (sibling_text elem).

(** Lines 69-89: the scan over all following siblings. *)
Definition scan (siblings : list node) : fields :=
  fold_left scan_step siblings (Fields "" "" (Some "")).

(** Lines 93-101: the record of one prospect. *)
Definition prospect (name : string) (f : fields) (competition_name : pyval)
    : pydict :=
  Dict (<["Student/Team Name" := Some name]>
       (<["School" := Some (school f)]>
       (<["Year" := Some (year f)]>
       (<["Major" := major f]>
       (<["Competition" := competition_name]>
       (<["Venture Name" := Some ""]>
       (<["Email" := Some ""]> ∅))))))) None.

(** Line 65: the test that skips an element that is unlikely a name. *)
Definition skipped (name : string) : bool :=
  (Str.len name <? 3)%nat || test not_name_re name.

(** Lines 61-101: the body of the loop over the name elements; [None] when
    the element adds nothing to [prospects]. *)
Definition prospect_of_name (competition_name : pyval) (name_elem : loc)
    : option pydict :=
  let name := Str.strip (get_text (elem name_elem)) in
  if skipped name then None
  else
    let f := scan (next_siblings name_elem) in
    if Str.truthy name then Some (prospect name f competition_name)
    else None.

(** Line 59 *)
Definition names_of (section : node) : list loc :=
  find_all ["h3"; "h4"; "strong"; "b"] (λ _, true) (Some 5) section.

(** Lines 42-103, on the parsed document. *)
Definition extract_from_soup (soup : node) (competition_name : pyval)
    : list pydict :=
  section ← winner_sections soup;
  omap (prospect_of_name competition_name) (names_of section).

Section WithParser.

(** [BeautifulSoup(html_content, 'html.parser')] *)
Variable BeautifulSoup : string → node.

(** Lines 31-103 *)
Definition extract_basic_info (html_content competition_name : pyval)
    : list pydict :=
  match html_content with
  | Some html =>
      if Str.truthy html
      then extract_from_soup (BeautifulSoup html) competition_name
      else []
  | None => []
  end.

End WithParser.

End Extractor.

(** ** What the extractor is meant to find *)

Module ExtractorSpec.
Import Re Soup Extractor.

(** What [f] finds in the first of the texts it finds something in. *)
Fixpoint first_match {A} (f : string → option A) (texts : list string)
    : option A :=
  match texts with
  | [] => None
  | text :: texts' =>
      match f text with
      | Some v => Some v
      | None => first_match f texts'
      end
  end.

(** The school a text gives: the whole text, when it names a school. *)
Definition school_in (text : string) : option string :=
  if test school_re text then Some text else None.

(** The year a text gives: the part of it that matched. *)
Definition year_in (text : string) : option string :=
  (λ m, default "" (group m 0)) <$> search year_re text.

(** The major a text gives: the captured word. *)
Definition major_in (text : string) : option pyval :=
  major_of <$> search major_re text.

(** A text that speaks of winners: it contains, up to case, one of the
    words winner, award and prize. *)
Definition winner_like (text : string) : Prop :=
  ∃ w, w ∈ ["winner"; "award"; "prize"] ∧ Str.icontains w text.

(** A block-level container whose class attribute is winner-like. *)
Definition winner_container (n : node) : Prop :=
  ∃ name toks contents,
    n = Tag name (Some toks) contents
    ∧ name ∈ ["div"; "section"; "article"]
    ∧ winner_like (Str.join " " toks).

(** A heading of level 1 to 4 whose text is winner-like. *)
Definition winner_heading (n : node) : Prop :=
  ∃ name class_ contents,
    n = Tag name class_ contents
    ∧ name ∈ ["h1"; "h2"; "h3"; "h4"]
    ∧ winner_like (get_text n).

(** A page with a winners' container: [<div class="winners-list"><p>
    <b>Jane Doe</b> Jane University <span>sophomore</span>majoring in
    Biology</p></div>]. *)
Definition jane_page : node :=
  Tag "[document]" None
    [Tag "div" (Some ["winners-list"])
       [Tag "p" None
          [Tag "b" None [Text "Jane Doe"]; Text " Jane University ";
           Tag "span" None [Text "sophomore"]; Text "majoring in Biology"]]].

(** A page with no such container but a heading: [<section><h2>Our Prize
    Winners</h2><p><strong>Team Rocket</strong>, class of 2024, Physics
    major at MIT College</p></section>]. *)
Definition heading_page : node :=
  Tag "[document]" None
    [Tag "section" None
       [Tag "h2" None [Text "Our Prize Winners"];
        Tag "p" None
          [Tag "strong" None [Text "Team Rocket"];
           Text ", class of 2024, Physics major at MIT College"]]].

End ExtractorSpec.

(** ** The world the program runs in *)

Abbreviation row := (list string).

(** What [requests.get] does: a response, or an exception. *)
Inductive http_result :=
| Response (status_code : Z) (text : string)
| Failure (e : string).

Inductive exn :=
| KeyError (key : string)
| ValueError
| FileNotFoundError (path : string)
| RequestException (e : string).

Inductive result (A : Type) :=
| Ok (a : A)
| Raise (e : exn).
Arguments Ok {A} a.
Arguments Raise {A} e.

(** The lines the program prints. *)
Inductive message :=
| FailedToAccess (url : pyval) (status_code : Z)
| ErrorAccessing (url : pyval) (e : exn)
| NoProspectsToSave
| Saved (n : nat) (output_file : string)
| CreatedCompetitions
| Checking (competition_name : pyval)
| Found (n : nat) (competition_name : pyval)
| NoProspectsFrom (competition_name : pyval).

Record date := Date { d_year : nat; d_month : nat; d_day : nat }.

(** Files by path, what was printed, and the two things the program asks
    of its environment: the network, which answers the n-th request of the
    run, and the clock, which answers the n-th reading. *)
Record world := World {
  files : gmap string (list row);
  stdout : list message;
  requests_get : nat → pyval → http_result;
  requests : nat;
  now : nat → date;
  readings : nat
}.

Definition set_files (f : gmap string (list row)) (w : world) : world :=
  World f (stdout w) (requests_get w) (requests w) (now w) (readings w).

(** [print(m)] *)
Definition print (m : message) (w : world) : world :=
  World (files w) (stdout w ++ [m])%list (requests_get w) (requests w)
        (now w) (readings w).

Definition request (url : pyval) (w : world) : world * http_result :=
  (World (files w) (stdout w) (requests_get w) (S (requests w))
         (now w) (readings w),
   requests_get w (requests w) url).

Definition read_clock (w : world) : world * date :=
  (World (files w) (stdout w) (requests_get w) (requests w)
         (now w) (S (readings w)),
   now w (readings w)).

(** [os.path.isfile(path)] *)
Definition isfile (path : string) (w : world) : bool :=
  bool_decide (is_Some (files w !! path)).

(** [open(path, 'w')]: the file is created or emptied. *)
Definition open_w (path : string) (w : world) : world :=
  set_files (<[path := []]> (files w)) w.

(** [open(path, 'a')]: the file is created when absent, kept otherwise. *)
Definition open_a (path : string) (w : world) : world :=
  set_files (<[path := default [] (files w !! path)]> (files w)) w.

(** [csv.writer(file).writerow(r)] on a file open for writing. *)
Definition writerow (path : string) (r : row) (w : world) : world :=
  set_files (<[path := (default [] (files w !! path) ++ [r])%list]> (files w)) w.

(** ** [csv.DictReader] and [csv.DictWriter] *)

(** One data row read under the field names of the header: the fields are
    bound by name, the later of two equal names winning; a short row binds
    the remaining names to [None], a long one keeps its surplus. *)
Definition dictreader_row (fieldnames : list string) (r : row) : pydict :=
  let d :=
    fold_left (λ m kv, <[kv.1 := Some kv.2]> m) (zip fieldnames r) ∅ in
  let d :=
    fold_left (λ m key, <[key := None]> m) (drop (length r) fieldnames) d in
  Dict d (if (length fieldnames <? length r)%nat
          then Some (drop (length fieldnames) r) else None).

(** All the rows of a file: the first is the header, blank rows are
    skipped. *)
Definition dictreader (rows : list row) : list pydict :=
  match rows with
  | [] => []
  | fieldnames :: rows' =>
      dictreader_row fieldnames <$> filter (λ r, r ≠ []) rows'
  end.

(** What the writer puts in a field: [None] is written as the empty
    string. *)
Definition fieldtext (v : pyval) : string := default "" v.

(** [DictWriter._dict_to_list]: a key outside the field names is an error,
    a missing one is written as the empty string. *)
Definition dict_to_list (fieldnames : list string) (rowdict : pydict)
    : result row :=
  let wrong_fields := dom (items rowdict) ∖ list_to_set fieldnames in
  if bool_decide (wrong_fields = (∅ : gset string) ∧ surplus rowdict = None)
  then Ok ((λ key, fieldtext (default (Some "") (items rowdict !! key)))
             <$> fieldnames)
  else Raise ValueError.

(** [for rowdict in rowdicts: writer.writerow(rowdict)], which is also what
    [writer.writerows(rowdicts)] does: the rows before a failing one are in
    the file. *)
Fixpoint writerows (path : string) (fieldnames : list string)
    (rowdicts : list pydict) (w : world) : world * result unit :=
  match rowdicts with
  | [] => (w, Ok ())
  | rowdict :: rowdicts' =>
      match dict_to_list fieldnames rowdict with
      | Ok r => writerows path fieldnames rowdicts' (writerow path r w)
      | Raise e => (w, Raise e)
      end
  end.

(** ** The program *)

Module Program.
Import Extractor.

(** Lines 8-15 *)
Definition read_competition_csv (file_path : string) (w : world)
    : result (list pydict) :=
  match files w !! file_path with
  | Some rows => Ok (dictreader rows)
  | None => Raise (FileNotFoundError file_path)
  end.

(** Lines 20-26: the body of the [try]. *)
Definition try_get (url : pyval) (w : world) : world * result pyval :=
  match request url w with
  | (w', Response status_code text) =>
      if (status_code =? 200)%Z then (w', Ok (Some text))
      else (print (FailedToAccess url status_code) w', Ok None)
  | (w', Failure e) => (w', Raise (RequestException e))
  end.

(** Lines 17-29: every exception of the body is caught. *)
Definition check_competition_website (url : pyval) (w : world)
    : world * result pyval :=
  match try_get url w with
  | (w', Ok html) => (w', Ok html)
  | (w', Raise e) => (print (ErrorAccessing url e) w', Ok None)
  end.

Definition prospect_fieldnames : list string :=
  ["Student/Team Name"; "School"; "Year"; "Major"; "Competition";
   "Venture Name"; "Email"].

(** Lines 105-123 *)
Definition save_prospects_to_csv (prospects : list pydict)
    (output_file : string) (w : world) : world * result unit :=
  match prospects with
  | [] => (print NoProspectsToSave w, Ok ())
  | _ =>
      let file_exists := isfile output_file w in
      let w := open_a output_file w in
      let w :=
        if negb file_exists then writerow output_file prospect_fieldnames w
        else w in
      match writerows output_file prospect_fieldnames prospects w with
      | (w, Ok _) => (print (Saved (length prospects) output_file) w, Ok ())
      | (w, Raise e) => (w, Raise e)
      end
  end.

Definition digit (n : nat) : ascii := ascii_of_nat (48 + n mod 10).

Definition pad2 (n : nat) : string :=
  String (digit (n / 10)) (String (digit n) EmptyString).

Definition pad4 (n : nat) : string :=
  String (digit (n / 1000)) (String (digit (n / 100)) (pad2 n)).

(** [d.strftime('%Y-%m-%d')], for the years a [datetime] of today has. *)
Definition strftime (d : date) : string :=
  pad4 (d_year d) +:+ "-" +:+ pad2 (d_month d) +:+ "-" +:+ pad2 (d_day d).

Definition competition_fieldnames : list string :=
  ["competition_name"; "url"; "last_checked"].

Section WithParser.

Variable BeautifulSoup : string → Soup.node.

(** Lines 140-152: the body of the loop for one competition, which leaves
    the competition as it is or with a new [last_checked]. *)
Definition process_one (competition : pydict) (w : world)
    : world * result pydict :=
  match items competition !! "competition_name" with
  | None => (w, Raise (KeyError "competition_name"))
  | Some competition_name =>
      let w := print (Checking competition_name) w in
      match items competition !! "url" with
      | None => (w, Raise (KeyError "url"))
      | Some url =>
          match check_competition_website url w with
          | (w, Raise e) => (w, Raise e)
          | (w, Ok html_content) =>
              if truth html_content then
                let prospects :=
                  extract_basic_info BeautifulSoup html_content
                                     competition_name in
                let saved :=
                  match prospects with
                  | [] => (print (NoProspectsFrom competition_name) w, Ok ())
                  | _ =>
                      match save_prospects_to_csv prospects
                              "tbmc_prospects.csv" w with
                      | (w, Ok _) =>
                          (print (Found (length prospects) competition_name) w,
                           Ok ())
                      | (w, Raise e) => (w, Raise e)
                      end
                  end in
                match saved with
                | (w, Raise e) => (w, Raise e)
                | (w, Ok _) =>
                    let (w, today) := read_clock w in
                    (w, Ok (setitem "last_checked" (Some (strftime today))
                                    competition))
                end
              else (w, Ok competition)
          end
      end
  end.

(** Lines 139-152: the loop, giving the competitions as it leaves them. *)
Fixpoint process (competitions : list pydict) (w : world)
    : world * result (list pydict) :=
  match competitions with
  | [] => (w, Ok [])
  | competition :: competitions' =>
      match process_one competition w with
      | (w, Raise e) => (w, Raise e)
      | (w, Ok competition') =>
          match process competitions' w with
          | (w, Raise e) => (w, Raise e)
          | (w, Ok done) => (w, Ok (competition' :: done))
          end
      end
  end.

(** Lines 125-158 *)
Definition main (w : world) : world * result unit :=
  let w :=
    if negb (isfile "competitions.csv" w) then
      let w := open_w "competitions.csv" w in
      let w := writerow "competitions.csv" competition_fieldnames w in
      let w :=
        writerow "competitions.csv"
          ["Rice Business Plan Competition";
           "https://rbpc.rice.edu/winners"; ""] w in
      let w :=
        writerow "competitions.csv"
          ["MIT $100K"; "https://www.mit100k.org/winners"; ""] w in
      print CreatedCompetitions w
    else w in
  match read_competition_csv "competitions.csv" w with
  | Raise e => (w, Raise e)
  | Ok competitions =>
      match process competitions w with
      | (w, Raise e) => (w, Raise e)
      | (w, Ok competitions) =>
          let w := open_w "competitions.csv" w in
          let w := writerow "competitions.csv" competition_fieldnames w in
          writerows "competitions.csv" competition_fieldnames competitions w
      end
  end.

End WithParser.

End Program.

(** ** What the sink and the run are meant to leave behind *)

Module ProgramSpec.
Import Program.

(** A record the writer accepts under the field names: it has no key
    outside them. *)
Definition writable (fieldnames : list string) (d : pydict) : Prop :=
  surplus d = None ∧ dom (items d) ⊆ list_to_set fieldnames.

(** The row of a record: the texts of its fields, in the order of the
    field names. *)
Definition row_of (fieldnames : list string) (d : pydict) : row :=
  (λ key, default "" (default (Some "") (items d !! key))) <$> fieldnames.

(** What the file holds before the data rows of a call of the sink. *)
Definition ledger_before (output_file : string) (w : world) : list row :=
  match files w !! output_file with
  | Some old => old
  | None => [prospect_fieldnames]
  end.

(** The record [csv.DictReader] makes of a row of the competitions
    table. *)
Definition competition_of : row → pydict :=
  dictreader_row competition_fieldnames.

(** A fetch that gives the run something to work on: status 200 and a
    body that is not empty. *)
Definition has_content (r : http_result) : bool :=
  match r with
  | Response status_code text => (status_code =? 200)%Z && Str.truthy text
  | Failure _ => false
  end.

(** A fetch that fails: an exception, or a status other than 200. *)
Definition fetch_fails (r : http_result) : Prop :=
  match r with
  | Response status_code _ => status_code ≠ 200%Z
  | Failure _ => True
  end.

(** The [i]-th row of the competitions table after a run on the day
    [today], the network answering the requests of the run by [net] from
    its [n0]-th answer on. *)
Definition rewritten (net : nat → pyval → http_result) (n0 : nat)
    (today : date) (i : nat) (r : row) : row :=
  match r with
  | [competition_name; url; last_checked] =>
      [competition_name; url;
       if has_content (net (n0 + i) (Some url)) then strftime today
       else last_checked]
  | _ => r
  end.

(** A world in which the table has one row, last checked on the first of
    January, the site answers 404, and the day is the fourth of
    November. *)
Definition stale_world : world :=
  World {["competitions.csv" :=
            [competition_fieldnames;
             ["Rice Business Plan Competition";
              "https://rbpc.rice.edu/winners"; "2026-01-01"]]]}
        [] (λ _ _, Response 404 "Not Found") 0 (λ _, Date 2026 11 4) 0.

(** A world in which the table has one row, the site answers with a page,
    and no ledger exists yet. *)
Definition fresh_world : world :=
  World {["competitions.csv" :=
            [competition_fieldnames;
             ["Rice Business Plan Competition";
              "https://rbpc.rice.edu/winners"; ""]]]}
        [] (λ _ _, Response 200 "<div class='winners-list'>...</div>") 0
        (λ _, Date 2026 11 4) 0.

(** A text of the form YYYY-MM-DD. *)
Definition ymd_form (s : string) : bool :=
  match s with
  | String y1 (String y2 (String y3 (String y4 (String h1
      (String m1 (String m2 (String h2 (String d1 (String d2 EmptyString)))))))))
    => forallb Str.is_digit [y1; y2; y3; y4; m1; m2; d1; d2]
       && Ascii.eqb h1 "-" && Ascii.eqb h2 "-"
  | _ => false
  end.

End ProgramSpec.

(** ** The texts a pattern takes, and the forms of the fields *)

Module FieldSpec.
Import Re.

(** Every character of [s] passes the test [p]. *)
Fixpoint all_chars (p : ascii → bool) (s : string) : bool :=
  match s with
  | EmptyString => true
  | String c t => p c && all_chars p t
  end.

(** [lang r mid]: [mid] is a text the pattern [r] can take, whatever is
    around it. *)
Fixpoint lang (r : regex) (mid : string) : Prop :=
  match r with
  | Eps | Boundary => mid = ""
  | Lit c => ∃ d, mid = String d "" ∧ Str.lower d = Str.lower c
  | Class p => ∃ d, mid = String d "" ∧ in_cls p d = true
  | Seq r1 r2 => ∃ m1 m2, mid = m1 +:+ m2 ∧ lang r1 m1 ∧ lang r2 m2
  | Alt r1 r2 => lang r1 mid ∨ lang r2 mid
  | Opt r1 => lang r1 mid ∨ mid = ""
  | Plus p => mid ≠ "" ∧ all_chars (in_cls p) mid = true
  | Group _ r1 => lang r1 mid
  end.

(** The position [s] is a position of the text [text]. *)
Definition at_text (text : string) (s : mstate) : Prop :=
  ∃ pre, text = pre +:+ rest s ∧ pos s = String.length pre.

(** A year as the extractor records it: nothing, one of the four class
    nouns in any case, or four digits. *)
Definition year_form (y : string) : bool :=
  negb (Str.truthy y)
  || existsb (Str.ieq y) ["freshman"; "sophomore"; "junior"; "senior"]
  || (String.length y =? 4) && all_chars Str.is_digit y.

End FieldSpec.

(** ** What a whole run leaves behind *)

Module RunSpec.
Import Program ProgramSpec.

(** What the fetcher hands to the run for an answer of the network: the
    body on status 200, [None] otherwise. *)
Definition page (res : http_result) : pyval :=
  match res with
  | Response status_code text =>
      if (status_code =? 200)%Z then Some text else None
  | Failure _ => None
  end.

(** The files after rows were added to the file at [path]: nothing
    changes when there is no row to add; otherwise the rows come after
    what the file held, or after the header when it did not exist. *)
Definition appended (path : string) (new : list row) (w : world)
    : gmap string (list row) :=
  match new with
  | [] => files w
  | _ => <[path := ledger_before path w ++ new]> (files w)
  end.

(** The record of the [i]-th row of the table as the loop leaves it, the
    network answering by [net] from its [n0]-th answer on. *)
Definition kept (net : nat → pyval → http_result) (n0 : nat) (today : date)
    (i : nat) (r : row) : pydict :=
  if has_content (net (n0 + i) (r !! 1))
  then setitem "last_checked" (Some (strftime today)) (competition_of r)
  else competition_of r.

(** The [i]-th row as the run writes it back: three fields, a missing one
    written as the empty text. *)
Definition written_back (net : nat → pyval → http_result) (n0 : nat)
    (today : date) (i : nat) (r : row) : row :=
  [default "" (r !! 0); default "" (r !! 1);
   if has_content (net (n0 + i) (r !! 1)) then strftime today
   else default "" (r !! 2)].

(** The world after lines 128-135, which make the table when it is
    missing. *)
Definition bootstrapped (w : world) : world :=
  print CreatedCompetitions
    (set_files
       (<["competitions.csv" :=
            [competition_fieldnames;
             ["Rice Business Plan Competition";
              "https://rbpc.rice.edu/winners"; ""];
             ["MIT $100K"; "https://www.mit100k.org/winners"; ""]]]>
          (files w)) w).

(** A world whose table has a blank row, a row of two fields and a full
    row; only the second request, that of the full row, gives content. *)
Definition ragged_world : world :=
  World {["competitions.csv" :=
            [competition_fieldnames; []; ["MIT $100K"; "https://mit.example"];
             ["Rice"; "https://rice.example"; "2026-01-01"]]]}
        []
        (λ n _, match n with
                | 1 => Response 200 "<div class='winners-list'>...</div>"
                | _ => Response 404 "Not Found"
                end)
        0 (λ _, Date 2026 11 4) 0.

(** A world whose table has a row of four fields between two full rows. *)
Definition long_row_world : world :=
  World {["competitions.csv" :=
            [competition_fieldnames;
             ["Rice"; "https://rice.example"; "2026-01-01"];
             ["MIT $100K"; "https://mit.example"; "2026-01-01"; "note"];
             ["Yale"; "https://yale.example"; "2026-01-01"]]]}
        [] (λ _ _, Response 404 "Not Found") 0 (λ _, Date 2026 11 4) 0.

(** A world whose table names its columns differently. *)
Definition bad_header_world : world :=
  World {["competitions.csv" :=
            [["name"; "url"; "last_checked"];
             ["Rice"; "https://rice.example"; "2026-01-01"]]]}
        [] (λ _ _, Response 404 "Not Found") 0 (λ _, Date 2026 11 4) 0.

(** A world with no file at all, in which every request gives content. *)
Definition empty_world : world :=
  World ∅ [] (λ _ _, Response 200 "<div class='winners-list'>...</div>") 0
        (λ _, Date 2026 11 4) 0.

Section WithParser.

Variable BeautifulSoup : string → Soup.node.

(** The rows one competition adds to the ledger. *)
Definition found (res : http_result) (competition_name : pyval) : list row :=
  row_of prospect_fieldnames
    <$> Extractor.extract_basic_info BeautifulSoup (page res) competition_name.

(** The rows a run over the rows of the table adds to the ledger. *)
Definition ledger_rows (net : nat → pyval → http_result) (n0 : nat)
    (rows : list row) : list row :=
  concat (imap (λ i r, found (net (n0 + i) (r !! 1)) (r !! 0)) rows).

End WithParser.

End RunSpec.

(** * Properties *)

(** ** The matcher finds exactly the matches *)

Module ReFacts.
Import Re ReSpec.

Lemma star_sound p k b t n g m :
  star p k b t n g = Some m →
  ∃ s', run p (MState b t n g) s' ∧ k s' = Some m.
Proof.
  revert b n. induction t as [|c t IH]; intros b n H; simpl in H.
  - eexists. split; [apply run_stop | done].
  - destruct (in_cls p c) eqn:Hc.
    + destruct (star p k (Some c) t (S n) g) eqn:Hs.
      * injection H as ->. apply IH in Hs as (s' & Hr & Hk).
        exists s'. split; [|done].
        eapply run_more; [reflexivity | exact Hc | exact Hr].
      * eexists. split; [apply run_stop | done].
    + eexists. split; [apply run_stop | done].
Qed.

Lemma mt_sound r : ∀ k s m,
  mt r k s = Some m → ∃ s', matches r s s' ∧ k s' = Some m.
Proof.
  induction r as [|c|p| |r1 IH1 r2 IH2|r1 IH1 r2 IH2|r1 IH1|p|i r1 IH1];
    intros k s m H; simpl in *.
  - eauto.
  - destruct (rest s) as [|d t] eqn:Hr; [done|].
    destruct (Ascii.eqb _ _) eqn:He; [|done].
    apply Ascii.eqb_eq in He. eauto 10.
  - destruct (rest s) as [|d t] eqn:Hr; [done|].
    destruct (in_cls p d) eqn:He; [|done]. eauto 10.
  - destruct (xorb _ _) eqn:He; [|done]. eauto.
  - apply IH1 in H as (s1 & H1 & H). apply IH2 in H as (s2 & H2 & H).
    eauto.
  - destruct (mt r1 k s) eqn:H1.
    + injection H as ->. apply IH1 in H1 as (s' & ? & ?). eauto.
    + apply IH2 in H as (s' & ? & ?). eauto.
  - destruct (mt r1 k s) eqn:H1.
    + injection H as ->. apply IH1 in H1 as (s' & ? & ?). eauto.
    + eauto.
  - destruct (rest s) as [|d t] eqn:Hr; [done|].
    destruct (in_cls p d) eqn:He; [|done].
    apply star_sound in H as (s' & ? & ?). eauto 10.
  - apply IH1 in H as (s1 & H1 & H). eauto.
Qed.

Lemma star_complete p k s s' :
  run p s s' → is_Some (k s') →
  is_Some (star p k (before s) (rest s) (pos s) (groups s)).
Proof.
  induction 1 as [s|s d t s' Hr Hc _ IH]; intros Hk.
  - destruct s as [b t n g]; simpl.
    destruct t as [|c t]; simpl; [done|].
    destruct (in_cls p c); [|done].
    destruct (star p k (Some c) t (S n) g); [eauto | done].
  - specialize (IH Hk). simpl in IH.
    rewrite Hr. simpl. rewrite Hc.
    destruct (star p k (Some d) t (S (pos s)) (groups s)); [eauto|].
    by destruct IH.
Qed.

Lemma mt_complete r : ∀ k s s',
  matches r s s' → is_Some (k s') → is_Some (mt r k s).
Proof.
  induction r as [|c|p| |r1 IH1 r2 IH2|r1 IH1 r2 IH2|r1 IH1|p|i r1 IH1];
    intros k s s' H Hk; simpl in *.
  - by subst.
  - destruct H as (d & t & -> & He & ->).
    by rewrite He, Ascii.eqb_refl.
  - destruct H as (d & t & -> & -> & ->). done.
  - destruct H as [-> ->]. done.
  - destruct H as (s1 & H1 & H2). eauto.
  - destruct (mt r1 k s) eqn:E; [eauto|].
    destruct H as [H|H]; [|eauto].
    eapply IH1 in H; [|done]. rewrite E in H. by destruct H.
  - destruct (mt r1 k s) eqn:E; [eauto|].
    destruct H as [H| ->]; [|done].
    eapply IH1 in H; [|done]. rewrite E in H. by destruct H.
  - destruct H as (d & t & -> & -> & H).
    by apply (star_complete _ _ _ _ H).
  - destruct H as (s1 & H1 & ->). eapply IH1; [done|]. done.
Qed.

End ReFacts.

Module StrFacts.
Import Str.

Lemma app_cons x a b : String x a +:+ b = String x (a +:+ b).
Proof. reflexivity. Qed.

Lemma app_nil_l a : "" +:+ a = a.
Proof. reflexivity. Qed.

Lemma app_assoc a b c : (a +:+ b) +:+ c = a +:+ b +:+ c.
Proof.
  induction a as [|x a IH]; [done|]. by rewrite !app_cons, IH.
Qed.

Lemma app_nil_r a : a +:+ "" = a.
Proof.
  induction a as [|x a IH]; [done|]. by rewrite app_cons, IH.
Qed.

Lemma length_app a b :
  String.length (a +:+ b) = String.length a + String.length b.
Proof.
  induction a as [|x a IH]; [done|]. rewrite app_cons. simpl. by rewrite IH.
Qed.

Lemma ieq_length a : ∀ b, ieq a b = true → String.length a = String.length b.
Proof.
  induction a as [|x a IH]; intros [|y b] H; simpl in *; try done.
  apply andb_prop in H as [_ H]. f_equal. by apply IH.
Qed.

Lemma icontains_length w s :
  icontains w s → String.length w ≤ String.length s.
Proof.
  intros (pre & mid & post & -> & H). apply ieq_length in H.
  rewrite !length_app. lia.
Qed.

Lemma truthy_length s : truthy s = true ↔ 0 < String.length s.
Proof. destruct s; simpl; split; (done || lia). Qed.

End StrFacts.

Module SearchFacts.
Import Re ReSpec ReFacts Str StrFacts.

Lemma run_inv p s s' :
  run p s s' →
  pos s ≤ pos s' ∧ groups s' = groups s
  ∧ pos s' + String.length (rest s') = pos s + String.length (rest s).
Proof.
  induction 1 as [s|s d t s' Hr Hc _ IH]; [done|].
  simpl in IH. rewrite Hr. simpl. destruct IH as (? & ? & ?).
  repeat split; (done || lia).
Qed.

(** A match moves forward by at least [minlen] characters and stays
    inside the text. *)
Lemma matches_inv r : ∀ s s',
  matches r s s' →
  pos s + minlen r ≤ pos s'
  ∧ pos s' + String.length (rest s') = pos s + String.length (rest s).
Proof.
  induction r as [|c|p| |r1 IH1 r2 IH2|r1 IH1 r2 IH2|r1 IH1|p|i r1 IH1];
    intros s s' H; simpl in *.
  - subst. lia.
  - destruct H as (d & t & Hr & _ & ->). rewrite Hr. simpl. lia.
  - destruct H as (d & t & Hr & _ & ->). rewrite Hr. simpl. lia.
  - destruct H as [_ ->]. lia.
  - destruct H as (s1 & H1 & H2).
    apply IH1 in H1. apply IH2 in H2. lia.
  - destruct H as [H|H]; [apply IH1 in H | apply IH2 in H]; lia.
  - destruct H as [H| ->]; [apply IH1 in H |]; lia.
  - destruct H as (d & t & Hr & _ & H). apply run_inv in H.
    rewrite Hr. simpl in *. lia.
  - destruct H as (s1 & H1 & ->). apply IH1 in H1. simpl. lia.
Qed.

Lemma lits_sound w : ∀ s s',
  matches (lits w) s s' →
  ∃ mid, rest s = mid +:+ rest s' ∧ ieq mid w = true
         ∧ groups s' = groups s.
Proof.
  induction w as [|c w IH]; intros s s' H; simpl in H.
  - subst. by exists "".
  - destruct H as (s1 & (d & t & Hr & He & ->) & H).
    apply IH in H as (mid & Hm & Hi & Hg). simpl in *.
    exists (String d mid). simpl. rewrite Hr, Hm, He, Ascii.eqb_refl.
    done.
Qed.

Lemma lits_complete w : ∀ mid post s,
  rest s = mid +:+ post → ieq mid w = true → ∃ s', matches (lits w) s s'.
Proof.
  induction w as [|c w IH]; intros mid post s Hr Hi; simpl.
  - eauto.
  - destruct mid as [|d mid]; [done|]. simpl in *.
    apply andb_prop in Hi as [He Hi]. apply Ascii.eqb_eq in He.
    destruct (IH mid post (advance d (mid +:+ post) s)) as [s' H];
      [done | done |].
    exists s', (advance d (mid +:+ post) s). split; [|done].
    exists d, (mid +:+ post). done.
Qed.

Lemma alts_matches ws : ∀ w s s',
  matches (alts w ws) s s' ↔ ∃ w', w' ∈ w :: ws ∧ matches (lits w') s s'.
Proof.
  induction ws as [|w2 ws IH]; intros w s s'; simpl.
  - split.
    + intros H. exists w. split; [apply list_elem_of_here | done].
    + intros (w' & Hin & H). apply list_elem_of_singleton in Hin. by subst.
  - rewrite IH. split.
    + intros [H|(w' & Hin & H)].
      * exists w. split; [apply list_elem_of_here | done].
      * exists w'. split; [by apply list_elem_of_further | done].
    + intros (w' & Hin & H). apply elem_of_cons in Hin as [->|Hin];
        [by left | right; eauto].
Qed.

Lemma search_from_sound r text : ∀ t b n m,
  search_from r text b t n = Some m →
  ∃ pre t' s',
    t = pre +:+ t'
    ∧ matches r (MState (last_char b pre) t' (n + String.length pre) []) s'
    ∧ m = Match text (n + String.length pre) (pos s') (groups s').
Proof.
  induction t as [|c t IH]; intros b n m H; simpl in H.
  - destruct (mt r Some (MState b "" n [])) eqn:E; [|done].
    injection H as <-. apply mt_sound in E as (s' & Hm & [= <-]).
    exists "", "", s'. simpl. rewrite Nat.add_0_r. done.
  - destruct (mt r Some (MState b (String c t) n [])) eqn:E.
    + injection H as <-. apply mt_sound in E as (s' & Hm & [= <-]).
      exists "", (String c t), s'. simpl. rewrite Nat.add_0_r. done.
    + apply IH in H as (pre & t' & s' & -> & Hm & ->).
      exists (String c pre), t', s'. simpl.
      rewrite <- Nat.add_succ_comm. done.
Qed.

Lemma search_from_complete r text : ∀ pre b n t s',
  matches r (MState (last_char b pre) t (n + String.length pre) []) s' →
  is_Some (search_from r text b (pre +:+ t) n).
Proof.
  induction pre as [|c pre IH]; intros b n t s' H; simpl in *.
  - rewrite Nat.add_0_r in H.
    assert (is_Some (mt r Some (MState b t n []))) as [m E]
      by (eapply mt_complete; [exact H | done]).
    destruct t; simpl; rewrite E; done.
  - destruct (mt r Some (MState b (String c (pre +:+ t)) n [])); [done|].
    eapply IH. rewrite Nat.add_succ_comm. exact H.
Qed.

(** Searching for one of several words is asking whether the text
    contains one of them, up to case. *)
Lemma test_alts w ws text :
  test (alts w ws) text = true ↔ ∃ w', w' ∈ w :: ws ∧ icontains w' text.
Proof.
  unfold test, search. split.
  - destruct (search_from _ _ _ _ _) eqn:E; [|done]. intros _.
    apply search_from_sound in E as (pre & t' & s' & -> & Hm & _).
    apply alts_matches in Hm as (w' & Hin & Hm).
    apply lits_sound in Hm as (mid & Hr & Hi & _). simpl in Hr.
    exists w'. split; [done|]. exists pre, mid, (rest s'). by rewrite Hr.
  - intros (w' & Hin & pre & mid & post & -> & Hi).
    destruct (lits_complete w' mid post
                (MState (last_char None pre) (mid +:+ post)
                        (0 + String.length pre) [])) as [s' Hm]; [done..|].
    assert (is_Some (search_from (alts w ws) (pre +:+ mid +:+ post) None
                                 (pre +:+ mid +:+ post) 0)) as [m ->]; [|done].
    eapply search_from_complete. apply alts_matches. eauto.
Qed.

Lemma test_alts_false w ws text :
  test (alts w ws) text = false ↔ ∀ w', w' ∈ w :: ws → ¬ icontains w' text.
Proof.
  rewrite <- not_true_iff_false, test_alts. split.
  - intros H w' Hin Hc. apply H. eauto.
  - intros H (w' & Hin & Hc). exact (H w' Hin Hc).
Qed.

End SearchFacts.

(** ** What the patterns of the extractor capture *)

Module PatternFacts.
Import Re ReSpec ReFacts Str StrFacts SearchFacts Extractor.

Lemma length_substring s : ∀ a k,
  a + k ≤ String.length s → String.length (substring a k s) = k.
Proof.
  induction s as [|c s IH]; intros a k H; simpl in *.
  - destruct a, k; simpl; lia.
  - destruct a as [|a]; [destruct k as [|k]|]; simpl; [done | | ].
    + f_equal. apply (IH 0 k). lia.
    + apply IH. lia.
Qed.

Lemma substring_truthy s a b :
  a < b → b ≤ String.length s → truthy (substring a (b - a) s) = true.
Proof.
  intros Hab Hb. apply truthy_length. rewrite length_substring; lia.
Qed.

(** Where a successful search starts and ends. *)
Lemma search_sound r text m :
  search r text = Some m →
  ∃ b t s',
    matches r (MState b t (m_start m) []) s'
    ∧ m_start m + String.length t = String.length text
    ∧ m_text m = text ∧ m_end m = pos s' ∧ m_groups m = groups s'.
Proof.
  intros H. apply search_from_sound in H as (pre & t & s' & Ht & Hm & ->).
  simpl in *. exists (last_char None pre), t, s'.
  repeat split; try done. by rewrite Ht, length_app.
Qed.

(** A year that is found is never the empty string. *)
Lemma year_found text year_match :
  search year_re text = Some year_match →
  truthy (default "" (group year_match 0)) = true.
Proof.
  intros H. apply search_sound in H as (b & t & s' & Hm & Hl & Ht & He & _).
  apply matches_inv in Hm as [Hpos Hlen]. simpl in *.
  change (minlen year_re) with 4 in Hpos.
  rewrite Ht, He. apply substring_truthy; lia.
Qed.

(** A major that is found is a [str], and never the empty one. *)
Lemma major_found text major_match :
  search major_re text = Some major_match →
  ∃ v, major_of major_match = Some v ∧ truthy v = true.
Proof.
  intros H. apply search_sound in H as (b & t & s' & Hm & Hl & Ht & He & Hg).
  pose proof (matches_inv _ _ _ Hm) as [_ Hlen]. simpl in Hlen.
  unfold major_of, group. rewrite Hg, Ht.
  destruct Hm as [Hm|Hm].
  - destruct Hm as (s1 & _ & s2 & _ & s3 & _ & s4 & Hp & ->).
    apply (matches_inv (Plus CWord)) in Hp as [Hp _]. simpl in *.
    assert (truthy (substring (pos s3) (pos s4 - pos s3) text) = true) as Hv
      by (apply substring_truthy; lia).
    rewrite Hv. eauto.
  - destruct Hm as (s1 & (s0 & Hp & ->) & Hw).
    pose proof (matches_inv _ _ _ Hw) as [Hpos _].
    apply lits_sound in Hw as (_ & _ & _ & Hgs).
    pose proof (matches_inv (Plus CWord) _ _ Hp) as [Hp1 _].
    destruct Hp as (d & t' & _ & _ & Hr). apply run_inv in Hr as (_ & Hg0 & _).
    simpl in *. rewrite Hgs, Hg0. simpl.
    eexists. split; [done|]. apply substring_truthy; lia.
Qed.

Example year_of_class : group_of year_re "Class of 2024" 0 = Some "2024".
Proof. reflexivity. Qed.

Example year_keeps_case : group_of year_re "a SENIOR at Rice" 0 = Some "SENIOR".
Proof. reflexivity. Qed.

Example year_not_five_digits : search year_re "id 12345" = None.
Proof. reflexivity. Qed.

Example major_first_word :
  major_of <$> search major_re "Majoring in Computer Science"
  = Some (Some "Computer").
Proof. reflexivity. Qed.

Example major_word_before :
  major_of <$> search major_re ", class of 2024, Physics major at MIT"
  = Some (Some "Physics").
Proof. reflexivity. Qed.

(** The school pattern asks for one of three words. *)
Lemma school_found text :
  test school_re text = true ↔
  ∃ w, w ∈ ["university"; "college"; "school"] ∧ icontains w text.
Proof. apply test_alts. Qed.

Lemma school_found_truthy text :
  test school_re text = true → truthy text = true.
Proof.
  intros (w & Hin & Hc)%school_found. apply icontains_length in Hc.
  apply truthy_length.
  repeat (apply elem_of_cons in Hin as [->|Hin]; [simpl in Hc; lia|]).
  by apply elem_of_nil in Hin.
Qed.

End PatternFacts.

(** ** The scan of the siblings *)

Module ScanFacts.
Import Re Soup Str StrFacts PatternFacts Extractor ExtractorSpec.

Lemma scan_texts siblings : ∀ f,
  fold_left scan_step siblings f
  = fold_left step_on_text (sibling_text <$> siblings) f.
Proof.
  induction siblings as [|e l IH]; intros f; [done|]. simpl. apply IH.
Qed.

Lemma not_truthy s : truthy s = false → s = "".
Proof. by destruct s. Qed.

(** One step leaves a field that has a value as it is. *)
Lemma step_keeps f text :
  (truthy (school f) = true → school (step_on_text f text) = school f)
  ∧ (truthy (year f) = true → year (step_on_text f text) = year f)
  ∧ (truth (major f) = true → major (step_on_text f text) = major f).
Proof.
  unfold step_on_text. simpl. repeat split; intros ->; simpl.
  - by rewrite andb_false_r.
  - by destruct (search year_re text).
  - by destruct (search major_re text).
Qed.

Lemma fold_school texts : ∀ f,
  school (fold_left step_on_text texts f)
  = if truthy (school f) then school f
    else default (school f) (first_match school_in texts).
Proof.
  induction texts as [|t l IH]; intros f; simpl.
  - by destruct (truthy (school f)).
  - rewrite IH. unfold school_in, step_on_text at 1 2 3. simpl.
    destruct (truthy (school f)) eqn:Hf; simpl.
    + by rewrite andb_false_r, Hf.
    + rewrite andb_true_r. destruct (test school_re t) eqn:Ht; simpl.
      * by rewrite (school_found_truthy _ Ht).
      * by rewrite Hf.
Qed.

Lemma fold_year texts : ∀ f,
  year (fold_left step_on_text texts f)
  = if truthy (year f) then year f
    else default (year f) (first_match year_in texts).
Proof.
  induction texts as [|t l IH]; intros f; simpl.
  - by destruct (truthy (year f)).
  - rewrite IH. unfold year_in, step_on_text at 1 2 3. simpl.
    destruct (truthy (year f)) eqn:Hf; simpl.
    + destruct (search year_re t); simpl; by rewrite Hf.
    + destruct (search year_re t) as [m|] eqn:Ht; simpl.
      * pose proof (year_found _ _ Ht) as Hy. simpl in Hy. by rewrite Hy.
      * by rewrite Hf.
Qed.

Lemma fold_major texts : ∀ f,
  major (fold_left step_on_text texts f)
  = if truth (major f) then major f
    else default (major f) (first_match major_in texts).
Proof.
  induction texts as [|t l IH]; intros f; simpl.
  - by destruct (truth (major f)).
  - rewrite IH. unfold major_in, step_on_text at 1 2 3. simpl.
    destruct (truth (major f)) eqn:Hf; simpl.
    + destruct (search major_re t); simpl; by rewrite Hf.
    + destruct (search major_re t) as [m|] eqn:Ht; simpl.
      * destruct (major_found _ _ Ht) as (v & -> & Hv). simpl. by rewrite Hv.
      * by rewrite Hf.
Qed.

(** The scan of more siblings leaves a field that has a value as it is. *)
Lemma fold_keeps texts f :
  (truthy (school f) = true
   → school (fold_left step_on_text texts f) = school f)
  ∧ (truthy (year f) = true
     → year (fold_left step_on_text texts f) = year f)
  ∧ (truth (major f) = true
     → major (fold_left step_on_text texts f) = major f).
Proof.
  rewrite fold_school, fold_year, fold_major.
  repeat split; by intros ->.
Qed.

Lemma first_match_app {A} (f : string → option A) pre text post v :
  (∀ t, t ∈ pre → f t = None) → f text = Some v →
  first_match f (pre ++ text :: post) = Some v.
Proof.
  intros Hpre Hv. induction pre as [|t pre IH]; simpl.
  - by rewrite Hv.
  - rewrite (Hpre t) by apply list_elem_of_here.
    apply IH. intros t' Hin. apply Hpre. by apply list_elem_of_further.
Qed.

(** The major is always a [str]: line 89 never yields [None]. *)
Lemma major_is_str siblings : ∃ v, major (scan siblings) = Some v.
Proof.
  unfold scan. rewrite scan_texts, fold_major. simpl.
  induction (sibling_text <$> siblings) as [|t l IH]; simpl; [eauto|].
  unfold major_in at 1. destruct (search major_re t) as [m|] eqn:Ht; simpl.
  - destruct (major_found _ _ Ht) as (v & -> & _). eauto.
  - done.
Qed.

End ScanFacts.

(** ** The extractor: names and their fields *)

Module ExtractorFacts.
Import Re Soup Str StrFacts SearchFacts PatternFacts.
Import Extractor ExtractorSpec ScanFacts.

Lemma skipped_iff name :
  skipped name = true ↔
  len name < 3
  ∨ ∃ w, w ∈ ["winner"; "award"; "prize"; "about"] ∧ icontains w name.
Proof.
  unfold skipped. rewrite orb_true_iff, Nat.ltb_lt.
  unfold not_name_re. by rewrite test_alts.
Qed.

Lemma not_skipped_truthy name : skipped name = false → truthy name = true.
Proof.
  unfold skipped. intros [H _]%orb_false_elim. apply Nat.ltb_ge in H.
  apply truthy_length. unfold len in H. lia.
Qed.

Lemma prospect_of_name_None competition_name name_elem :
  prospect_of_name competition_name name_elem = None
  ↔ skipped (strip (get_text (elem name_elem))) = true.
Proof.
  unfold prospect_of_name.
  destruct (skipped _) eqn:Hs; [done|].
  by rewrite (not_skipped_truthy _ Hs).
Qed.

Lemma short_keyword_free name :
  len name ≤ 4 → test not_name_re name = false.
Proof.
  intros Hl. apply test_alts_false. intros w Hin Hc.
  apply icontains_length in Hc. unfold len in Hl.
  repeat (apply elem_of_cons in Hin as [->|Hin]; [simpl in Hc; lia|]).
  by apply elem_of_nil in Hin.
Qed.

(** The prospects of a document are those of the name elements of its
    winner regions. *)
Lemma extract_from_soup_elem soup competition_name p :
  p ∈ extract_from_soup soup competition_name ↔
  ∃ section name_elem,
    section ∈ winner_sections soup ∧ name_elem ∈ names_of section
    ∧ prospect_of_name competition_name name_elem = Some p.
Proof.
  unfold extract_from_soup. rewrite list_elem_of_bind.
  setoid_rewrite list_elem_of_omap. split.
  - intros (section & (l & ? & ?) & ?). eauto.
  - intros (section & l & ? & ? & ?). eauto.
Qed.

(** C5: a candidate name element is skipped exactly when its trimmed text
    is shorter than 3 characters or contains, up to case, one of winner,
    award, prize, about; so a trimmed text of exactly 2 characters is left
    out of the results, and one of exactly 3 characters, which is too short
    to hold a keyword, is in them. *)
Theorem name_is_skipped_iff (competition_name : pyval) (name_elem : loc) :
  let name := strip (get_text (elem name_elem)) in
  (prospect_of_name competition_name name_elem = None ↔
   len name < 3
   ∨ ∃ w, w ∈ ["winner"; "award"; "prize"; "about"] ∧ icontains w name)
  ∧ (len name = 2 → prospect_of_name competition_name name_elem = None)
  ∧ (len name = 3 →
     ∃ p, prospect_of_name competition_name name_elem = Some p
          ∧ items p !! "Student/Team Name" = Some (Some name)).
Proof.
  intros name. split; [|split].
  - by rewrite prospect_of_name_None, skipped_iff.
  - intros H. apply prospect_of_name_None, skipped_iff. left.
    fold name. lia.
  - intros H. unfold prospect_of_name. fold name.
    assert (skipped name = false) as Hs.
    { unfold skipped. rewrite short_keyword_free by lia.
      rewrite orb_false_r. apply Nat.ltb_ge. lia. }
    rewrite Hs, (not_skipped_truthy _ Hs).
    eexists. split; [done|]. reflexivity.
Qed.

Lemma name_is_skipped_iff_witness :
  prospect_of_name (Some "Rice") (Loc (Tag "b" None [Text " Al "]) [] [])
  = None
  ∧ ∃ p, prospect_of_name (Some "Rice")
           (Loc (Tag "b" None [Text " Ann "]) [] []) = Some p
         ∧ items p !! "Student/Team Name" = Some (Some "Ann").
Proof.
  split.
  - apply (name_is_skipped_iff (Some "Rice")
             (Loc (Tag "b" None [Text " Al "]) [] [])).
    reflexivity.
  - apply (name_is_skipped_iff (Some "Rice")
             (Loc (Tag "b" None [Text " Ann "]) [] [])).
    reflexivity.
Defined.

(** C4: each of school, year and major is that of the first sibling, in
    document order, whose text gives one; a field that has a value is not
    changed by later siblings; and of two siblings that both contain
    "university", the first, when no sibling before it names a school,
    gives the school: its whole text. *)
Theorem first_match_wins (siblings : list node) :
  let texts := sibling_text <$> siblings in
  school (scan siblings) = default "" (first_match school_in texts)
  ∧ year (scan siblings) = default "" (first_match year_in texts)
  ∧ major (scan siblings) = default (Some "") (first_match major_in texts)
  ∧ (∀ later,
       (truthy (school (scan siblings)) = true →
        school (scan (siblings ++ later)) = school (scan siblings))
       ∧ (truthy (year (scan siblings)) = true →
          year (scan (siblings ++ later)) = year (scan siblings))
       ∧ (truth (major (scan siblings)) = true →
          major (scan (siblings ++ later)) = major (scan siblings)))
  ∧ (∀ pre a mid b post,
       siblings = pre ++ a :: mid ++ b :: post →
       icontains "university" (sibling_text a) →
       icontains "university" (sibling_text b) →
       (∀ e w, e ∈ pre → w ∈ ["university"; "college"; "school"] →
               ¬ icontains w (sibling_text e)) →
       school (scan siblings) = sibling_text a).
Proof.
  intros texts.
  assert (school (scan siblings) = default "" (first_match school_in texts))
    as Hschool by (unfold scan; by rewrite scan_texts, fold_school).
  split; [done|]. split; [|split; [|split]].
  - unfold scan. by rewrite scan_texts, fold_year.
  - unfold scan. by rewrite scan_texts, fold_major.
  - intros later. unfold scan. rewrite fold_left_app, (scan_texts later).
    apply fold_keeps.
  - intros pre a mid b post -> Ha _ Hpre. rewrite Hschool. unfold texts.
    rewrite fmap_app, fmap_cons.
    erewrite first_match_app; [done | |].
    + intros t (e & -> & He)%list_elem_of_fmap. unfold school_in.
      assert (test school_re (sibling_text e) = false) as ->; [|done].
      apply test_alts_false. intros w Hw. by apply Hpre.
    + unfold school_in.
      assert (test school_re (sibling_text a) = true) as ->; [|done].
      apply school_found. exists "university". split; [|done].
      apply list_elem_of_here.
Qed.

Lemma first_match_wins_witness :
  school (scan [Text "Class of 2024"; Text " Rice University ";
                Tag "p" None [Text "Adjunct, Yale university"]])
  = "Rice University".
Proof.
  destruct (first_match_wins
              [Text "Class of 2024"; Text " Rice University ";
               Tag "p" None [Text "Adjunct, Yale university"]])
    as (_ & _ & _ & _ & H).
  apply (H [Text "Class of 2024"] (Text " Rice University ") []
           (Tag "p" None [Text "Adjunct, Yale university"]) []).
  - reflexivity.
  - exists "Rice ", "University", "". split; reflexivity.
  - exists "Adjunct, Yale ", "university", "". split; reflexivity.
  - intros e w He Hw Hc. apply list_elem_of_singleton in He as ->.
    assert (test school_re (sibling_text (Text "Class of 2024")) = true)
      as Ht by (apply school_found; eauto).
    vm_compute in Ht. discriminate Ht.
Defined.

(** C3: an accepted name whose following siblings have the texts
    "Jane University", "sophomore", "majoring in Biology", in this order,
    gives a record whose school is "Jane University", whose year is
    "sophomore" and whose major is "Biology". *)
Theorem jane_university_example (competition_name : pyval) (name_elem : loc) :
  let name := strip (get_text (elem name_elem)) in
  skipped name = false →
  sibling_text <$> next_siblings name_elem
  = ["Jane University"; "sophomore"; "majoring in Biology"] →
  ∃ p, prospect_of_name competition_name name_elem = Some p
       ∧ items p !! "Student/Team Name" = Some (Some name)
       ∧ items p !! "School" = Some (Some "Jane University")
       ∧ items p !! "Year" = Some (Some "sophomore")
       ∧ items p !! "Major" = Some (Some "Biology")
       ∧ items p !! "Competition" = Some competition_name
       ∧ items p !! "Venture Name" = Some (Some "")
       ∧ items p !! "Email" = Some (Some "").
Proof.
  intros name Hs Hsib. unfold prospect_of_name. fold name.
  rewrite Hs, (not_skipped_truthy _ Hs). unfold scan.
  rewrite scan_texts, Hsib.
  eexists. split; [done|]. repeat split; reflexivity.
Qed.

Lemma jane_university_example_witness :
  ∃ p, prospect_of_name (Some "Rice Business Plan Competition")
         (Loc (Tag "strong" None [Text "Jane Doe"])
              [Text " Jane University "; Tag "span" None [Text "sophomore"];
               Tag "em" None [Text "majoring in "; Text "Biology"]] [])
       = Some p
       ∧ items p !! "Student/Team Name" = Some (Some "Jane Doe")
       ∧ items p !! "School" = Some (Some "Jane University")
       ∧ items p !! "Year" = Some (Some "sophomore")
       ∧ items p !! "Major" = Some (Some "Biology")
       ∧ items p !! "Competition" = Some (Some "Rice Business Plan Competition")
       ∧ items p !! "Venture Name" = Some (Some "")
       ∧ items p !! "Email" = Some (Some "").
Proof.
  apply (jane_university_example (Some "Rice Business Plan Competition")
           (Loc (Tag "strong" None [Text "Jane Doe"])
              [Text " Jane University "; Tag "span" None [Text "sophomore"];
               Tag "em" None [Text "majoring in "; Text "Biology"]] [])).
  - reflexivity.
  - reflexivity.
Defined.

End ExtractorFacts.

(** ** The extractor: the regions it looks into *)

Module RegionFacts.
Import Re Soup Str StrFacts SearchFacts Extractor ExtractorSpec.

Lemma icontains_app_l w a b : icontains w a → icontains w (a +:+ b).
Proof.
  intros (pre & mid & post & -> & H). exists pre, mid, (post +:+ b).
  by rewrite !app_assoc.
Qed.

Lemma icontains_app_r w a b : icontains w b → icontains w (a +:+ b).
Proof.
  intros (pre & mid & post & -> & H). exists (a +:+ pre), mid, post.
  by rewrite !app_assoc.
Qed.

Lemma icontains_join w tok toks :
  tok ∈ toks → icontains w tok → icontains w (join " " toks).
Proof.
  intros Hin Hc. induction toks as [|x toks IH]; [by apply elem_of_nil in Hin|].
  apply elem_of_cons in Hin as [<-|Hin].
  - destruct toks; [done|]. by apply icontains_app_l.
  - destruct toks as [|y toks]; [by apply elem_of_nil in Hin|].
    change (join " " (x :: y :: toks))
      with (x +:+ " " +:+ join " " (y :: toks)).
    apply icontains_app_r, icontains_app_r, IH, Hin.
Qed.

Lemma has_name_iff names n :
  has_name names n = true ↔
  ∃ name class_ contents, n = Tag name class_ contents ∧ name ∈ names.
Proof.
  destruct n as [name c cs|t]; simpl.
  - rewrite existsb_exists. split.
    + intros (x & Hin & ->%String.eqb_eq). apply list_elem_of_In in Hin. eauto.
    + intros (? & ? & ? & [= <- <- <-] & Hin). exists name.
      by rewrite <- list_elem_of_In, String.eqb_refl.
  - split; [done|]. by intros (? & ? & ? & ? & _).
Qed.

Lemma winner_like_iff text : test winner_re text = true ↔ winner_like text.
Proof. apply test_alts. Qed.

Lemma class_matches_winner n :
  class_matches winner_re n = true →
  ∃ name toks contents,
    n = Tag name (Some toks) contents ∧ winner_like (join " " toks).
Proof.
  destruct n as [name [toks|] cs|t]; simpl; try done.
  intros H. exists name, toks, cs. split; [done|].
  apply orb_prop in H as [H|H]; [|by apply winner_like_iff].
  apply existsb_exists in H as (tok & Hin%list_elem_of_In & Ht).
  apply winner_like_iff in Ht as (w & Hw & Hc).
  exists w. eauto using icontains_join.
Qed.

(** The [.string] of a node, when it has one, is all of its text. *)
Lemma string_get_text : ∀ n s, string_ n = Some s → get_text n = s.
Proof.
  fix IH 1. intros [name c cs|t] s H; simpl in *.
  - destruct cs as [|c0 [|]]; try done.
    rewrite (IH c0 s H). apply app_nil_r.
  - by injection H.
Qed.

Lemma string_matches_winner n :
  string_matches winner_re n = true → winner_like (get_text n).
Proof.
  unfold string_matches. destruct (string_ n) as [s|] eqn:Hs; [|done].
  rewrite (string_get_text _ _ Hs). apply winner_like_iff.
Qed.

Lemma find_all_nil names flt limit root :
  (∀ l, l ∈ descendants [] root →
        has_name names (elem l) = true → flt (elem l) = true → False) →
  find_all names flt limit root = [].
Proof.
  intros H. unfold find_all.
  assert (filter (λ l, has_name names (elem l) && flt (elem l) = true)
                 (descendants [] root) = []) as ->;
    [|by destruct limit as [[|?]|]].
  apply elem_of_nil_inv. intros l [Hl Hin]%list_elem_of_filter.
  apply andb_prop in Hl as [? ?]. eauto.
Qed.

(** A document with no winner-like container and no winner-like heading
    has no region to look into. *)
Lemma no_winner_sections soup :
  (∀ l, l ∈ descendants [] soup →
        ¬ winner_container (elem l) ∧ ¬ winner_heading (elem l)) →
  winner_sections soup = [].
Proof.
  intros H. unfold winner_sections.
  assert (find_all containers (class_matches winner_re) None soup = [])
    as ->.
  { apply find_all_nil. intros l Hin Hn Hc. apply (proj1 (H l Hin)).
    apply has_name_iff in Hn as (name & c & cs & He & Hn).
    apply class_matches_winner in Hc as (name' & toks & cs' & He' & Hw).
    rewrite He in He'. injection He' as <- -> <-.
    exists name, toks, cs. done. }
  assert (find_all ["h1"; "h2"; "h3"; "h4"] (string_matches winner_re)
                   None soup = []) as ->; [|done].
  apply find_all_nil. intros l Hin Hn Hs. apply (proj2 (H l Hin)).
  apply has_name_iff in Hn as (name & c & cs & He & Hn).
  exists name, c, cs. split; [done|]. split; [done|].
  by apply string_matches_winner.
Qed.

(** C6: when the parsed input has no block-level container (div, section,
    article) whose class matches winner|award|prize up to case and no
    heading (h1 to h4) whose text does, the extraction gives the empty
    sequence; being a total function it gives it without raising, and it
    gives it as well for an absent or empty input. *)
Theorem no_winner_region_no_prospects
    (BeautifulSoup : string → node) (html_content competition_name : pyval) :
  (∀ html l,
     html_content = Some html → l ∈ descendants [] (BeautifulSoup html) →
     ¬ winner_container (elem l) ∧ ¬ winner_heading (elem l)) →
  extract_basic_info BeautifulSoup html_content competition_name = [].
Proof.
  intros H. unfold extract_basic_info.
  destruct html_content as [html|]; [|done].
  destruct (truthy html); [|done].
  unfold extract_from_soup. rewrite no_winner_sections; [done|].
  intros l Hl. by apply (H html).
Qed.

Lemma no_winner_region_no_prospects_witness :
  extract_basic_info
    (λ _, Tag "[document]" None
            [Tag "div" (Some ["news"; "box"])
               [Tag "h2" None [Text "Latest news"]; Tag "b" None [Text "Jane Doe"]]])
    (Some "<div class='news box'><h2>Latest news</h2><b>Jane Doe</b></div>")
    (Some "Rice") = [].
Proof.
  apply no_winner_region_no_prospects. intros html l _ Hl.
  assert (∀ text, test winner_re text = false → ¬ winner_like text) as Hno.
  { intros text Ht Hw%winner_like_iff. congruence. }
  cbv [descendants] in Hl.
  repeat (apply elem_of_cons in Hl as [->|Hl]);
    [..|by apply elem_of_nil in Hl];
    (split; [intros (? & ? & ? & He & _ & Hw) | intros (? & ? & ? & He & _ & Hw)]);
    simpl in He; try discriminate He;
    try (injection He as <- <- <-); revert Hw; apply Hno; reflexivity.
Defined.

End RegionFacts.

(** ** The CSV writer and the sink *)

Module SinkFacts.
Import Program ProgramSpec.

Lemma set_files_id w : set_files (files w) w = w.
Proof. by destruct w. Qed.

Lemma dict_to_list_ok fieldnames d :
  writable fieldnames d → dict_to_list fieldnames d = Ok (row_of fieldnames d).
Proof.
  intros [Hs Hd]. unfold dict_to_list. rewrite bool_decide_eq_true_2; [done|].
  split; [|done]. by apply subseteq_empty_difference_L.
Qed.

(** Writing rows appends them to what the file holds. *)
Lemma writerows_ok path fieldnames rowdicts : ∀ w old,
  files w !! path = Some old → Forall (writable fieldnames) rowdicts →
  writerows path fieldnames rowdicts w
  = (set_files (<[path := old ++ (row_of fieldnames <$> rowdicts)]> (files w)) w,
     Ok ()).
Proof.
  induction rowdicts as [|d ds IH]; intros w old Hold Hw; simpl.
  - by rewrite app_nil_r, insert_id, set_files_id.
  - apply Forall_cons in Hw as [Hd Hds].
    rewrite (dict_to_list_ok _ _ Hd).
    rewrite (IH _ (old ++ [row_of fieldnames d])); [|by
      unfold writerow; simpl; rewrite Hold; apply lookup_insert_eq | done].
    unfold writerow, set_files. simpl.
    by rewrite insert_insert_eq, <- app_assoc.
Qed.

(** Also when a record is refused, what the file held is still there. *)
Lemma writerows_appends path fieldnames rowdicts : ∀ w old,
  files w !! path = Some old →
  ∃ new, files (writerows path fieldnames rowdicts w).1 !! path
         = Some (old ++ new).
Proof.
  induction rowdicts as [|d ds IH]; intros w old Hold; simpl.
  - exists []. by rewrite app_nil_r.
  - destruct (dict_to_list fieldnames d) as [r|e].
    + destruct (IH (writerow path r w) (old ++ [r])) as [new Hnew].
      { unfold writerow. simpl. rewrite Hold. apply lookup_insert_eq. }
      exists (r :: new). by rewrite Hnew, <- app_assoc.
    + exists []. by rewrite app_nil_r.
Qed.

Lemma writerows_other path fieldnames rowdicts path' : ∀ w,
  path' ≠ path →
  files (writerows path fieldnames rowdicts w).1 !! path' = files w !! path'.
Proof.
  induction rowdicts as [|d ds IH]; intros w Hne; simpl; [done|].
  destruct (dict_to_list fieldnames d) as [r|e]; [|done].
  rewrite IH by done. unfold writerow. simpl. by apply lookup_insert_ne.
Qed.

(** The sink on a non-empty sequence of records it can write. *)
Lemma save_ok prospects output_file w :
  prospects ≠ [] → Forall (writable prospect_fieldnames) prospects →
  save_prospects_to_csv prospects output_file w
  = (print (Saved (length prospects) output_file)
       (set_files
          (<[output_file := ledger_before output_file w
                            ++ (row_of prospect_fieldnames <$> prospects)]>
             (files w)) w),
     Ok ()).
Proof.
  intros Hne Hw. unfold save_prospects_to_csv, ledger_before, isfile.
  destruct prospects as [|p ps]; [done|].
  destruct (files w !! output_file) as [old|] eqn:Hold.
  - rewrite bool_decide_eq_true_2 by eauto. simpl negb. cbv iota.
    rewrite (writerows_ok _ _ _ _ old);
      [|by unfold open_a; simpl; rewrite Hold; apply lookup_insert_eq | done].
    unfold open_a, set_files. simpl. by rewrite Hold, insert_insert_eq.
  - rewrite bool_decide_eq_false_2 by (by intros [? ?]). simpl negb. cbv iota.
    rewrite (writerows_ok _ _ _ _ [prospect_fieldnames]);
      [|by unfold writerow, open_a; simpl; rewrite Hold, !lookup_insert_eq
       | done].
    unfold writerow, open_a, set_files. simpl.
    by rewrite Hold, !lookup_insert_eq, !insert_insert_eq.
Qed.

(** The sink never takes away from a file, whatever it is given. *)
Lemma save_appends prospects output_file w old :
  files w !! output_file = Some old →
  ∃ new, files (save_prospects_to_csv prospects output_file w).1 !! output_file
         = Some (old ++ new).
Proof.
  intros Hold. unfold save_prospects_to_csv.
  destruct prospects as [|p ps].
  { exists []. by rewrite app_nil_r. }
  unfold isfile. rewrite bool_decide_eq_true_2 by eauto. simpl negb. cbv iota.
  destruct (writerows_appends output_file prospect_fieldnames (p :: ps)
              (open_a output_file w) old) as [new Hnew].
  { unfold open_a. simpl. rewrite Hold. apply lookup_insert_eq. }
  exists new.
  by destruct (writerows output_file prospect_fieldnames (p :: ps)
                 (open_a output_file w)) as [w' [[]|e]].
Qed.

(** The sink touches no other file. *)
Lemma save_other prospects output_file w path :
  path ≠ output_file →
  files (save_prospects_to_csv prospects output_file w).1 !! path
  = files w !! path.
Proof.
  intros Hne. unfold save_prospects_to_csv.
  destruct prospects as [|p ps]; [done|].
  set (w1 := if negb (isfile output_file w) then _ else _).
  assert (files w1 !! path = files w !! path) as <-.
  { unfold w1. destruct (negb _); unfold writerow, open_a; simpl;
      by rewrite ?lookup_insert_ne. }
  rewrite <- (writerows_other output_file prospect_fieldnames (p :: ps) path w1)
    by done.
  by destruct (writerows output_file prospect_fieldnames (p :: ps) w1)
    as [w' [[]|e]].
Qed.

End SinkFacts.

Module SinkClaims.
Import Program ProgramSpec SinkFacts.

(** The records of the extractor have exactly the columns of the ledger. *)
Lemma prospect_writable name f competition_name :
  writable prospect_fieldnames (Extractor.prospect name f competition_name).
Proof.
  split; [done|]. unfold Extractor.prospect. simpl.
  rewrite !dom_insert_L, dom_empty_L. done.
Qed.

Lemma extracted_writable BeautifulSoup html_content competition_name :
  Forall (writable prospect_fieldnames)
    (Extractor.extract_basic_info BeautifulSoup html_content competition_name).
Proof.
  apply Forall_forall. intros p Hp. unfold Extractor.extract_basic_info in Hp.
  destruct html_content as [html|]; [|by apply elem_of_nil in Hp].
  destruct (Str.truthy html); [|by apply elem_of_nil in Hp].
  apply ExtractorFacts.extract_from_soup_elem in Hp as (sec & l & _ & _ & Hp).
  unfold Extractor.prospect_of_name in Hp.
  destruct (Extractor.skipped _); [done|].
  destruct (Str.truthy _); [|done].
  injection Hp as <-. apply prospect_writable.
Qed.

Example extract_jane_page :
  row_of prospect_fieldnames
    <$> Extractor.extract_from_soup ExtractorSpec.jane_page (Some "Rice")
  = [["Jane Doe"; "Jane University"; "sophomore"; "Biology"; "Rice"; ""; ""]].
Proof. vm_compute. reflexivity. Qed.

Example extract_heading_page :
  row_of prospect_fieldnames
    <$> Extractor.extract_from_soup ExtractorSpec.heading_page (Some "MIT $100K")
  = [["Team Rocket"; ", class of 2024, Physics major at MIT College"; "2024";
      "Physics"; "MIT $100K"; ""; ""]].
Proof. vm_compute. reflexivity. Qed.

(** C8: the sink given an empty sequence prints its diagnostic and does
    nothing else: no file is created and none is changed. *)
Theorem sink_of_nothing (output_file : string) (w : world) :
  ∃ w', save_prospects_to_csv [] output_file w = (w', Ok ())
        ∧ files w' = files w
        ∧ stdout w' = stdout w ++ [NoProspectsToSave].
Proof. by eexists. Qed.

(** C10: given a non-empty sequence, the sink writes the header row exactly
    when the output file does not exist at the call: a file that is absent
    gets the header and then the data rows, a file that exists gets the data
    rows after what it holds, and so an existing file of zero bytes gets the
    data rows with no header. *)
Theorem header_iff_file_absent
    (prospects : list pydict) (output_file : string) (w : world) :
  prospects ≠ [] → Forall (writable prospect_fieldnames) prospects →
  ∃ w', save_prospects_to_csv prospects output_file w = (w', Ok ())
        ∧ (files w !! output_file = None →
           files w' !! output_file
           = Some (prospect_fieldnames
                     :: (row_of prospect_fieldnames <$> prospects)))
        ∧ (∀ old, files w !! output_file = Some old →
                  files w' !! output_file
                  = Some (old ++ (row_of prospect_fieldnames <$> prospects)))
        ∧ (files w !! output_file = Some [] →
           files w' !! output_file
           = Some (row_of prospect_fieldnames <$> prospects)).
Proof.
  intros Hne Hw. eexists. split; [by apply save_ok|].
  simpl. rewrite lookup_insert_eq. unfold ledger_before.
  repeat split; [intros -> | intros old -> | intros ->]; done.
Qed.

Lemma header_iff_file_absent_witness :
  ∃ w', save_prospects_to_csv
          [Extractor.prospect "Jane Doe"
             (Extractor.Fields "Jane University" "sophomore" (Some "Biology"))
             (Some "Rice")]
          "tbmc_prospects.csv"
          (World {["tbmc_prospects.csv" := []]} [] (λ _ _, Failure "down") 0
                 (λ _, Date 2026 11 4) 0)
        = (w', Ok ())
        ∧ files w' !! "tbmc_prospects.csv"
          = Some [["Jane Doe"; "Jane University"; "sophomore"; "Biology";
                   "Rice"; ""; ""]].
Proof.
  destruct (header_iff_file_absent
              [Extractor.prospect "Jane Doe"
                 (Extractor.Fields "Jane University" "sophomore" (Some "Biology"))
                 (Some "Rice")]
              "tbmc_prospects.csv"
              (World {["tbmc_prospects.csv" := []]} [] (λ _ _, Failure "down") 0
                     (λ _, Date 2026 11 4) 0))
    as (w' & Hrun & _ & _ & Hempty).
  - discriminate.
  - apply Forall_cons. split; [apply prospect_writable | by apply Forall_nil].
  - exists w'. split; [exact Hrun|]. apply Hempty. reflexivity.
Defined.

(** C7: two calls of the sink with non-empty sequences, on a path that did
    not exist before the first, leave a file that holds the header row once,
    written by the first call, and then the data rows of the first call and
    those of the second; no other file is touched, and a call of the sink
    never changes or removes a row a file already holds. *)
Theorem sink_twice_on_fresh_path
    (first second : list pydict) (output_file : string) (w : world) :
  files w !! output_file = None →
  first ≠ [] → second ≠ [] →
  Forall (writable prospect_fieldnames) first →
  Forall (writable prospect_fieldnames) second →
  ∃ w1 w2,
    save_prospects_to_csv first output_file w = (w1, Ok ())
    ∧ save_prospects_to_csv second output_file w1 = (w2, Ok ())
    ∧ files w1 !! output_file
      = Some (prospect_fieldnames :: (row_of prospect_fieldnames <$> first))
    ∧ files w2 !! output_file
      = Some (prospect_fieldnames
                :: (row_of prospect_fieldnames <$> first)
                ++ (row_of prospect_fieldnames <$> second))
    ∧ (∀ path, path ≠ output_file → files w2 !! path = files w !! path)
    ∧ (∀ prospects w0 old,
         files w0 !! output_file = Some old →
         ∃ new,
           files (save_prospects_to_csv prospects output_file w0).1
             !! output_file = Some (old ++ new)).
Proof.
  intros Hfresh Hne1 Hne2 Hw1 Hw2.
  eexists _, _. split; [by apply save_ok|]. split; [by apply save_ok|].
  unfold ledger_before. simpl. rewrite !lookup_insert_eq, Hfresh.
  repeat split.
  - intros path Hne. by rewrite !lookup_insert_ne.
  - intros prospects w0 old. apply save_appends.
Qed.

Lemma sink_twice_on_fresh_path_witness :
  ∃ w1 w2,
    save_prospects_to_csv
      [Extractor.prospect "Jane Doe"
         (Extractor.Fields "Jane University" "sophomore" (Some "Biology"))
         (Some "Rice")]
      "tbmc_prospects.csv"
      (World ∅ [] (λ _ _, Failure "down") 0 (λ _, Date 2026 11 4) 0)
    = (w1, Ok ())
    ∧ save_prospects_to_csv
        [Extractor.prospect "Team Rocket" (Extractor.Fields "" "2024" (Some ""))
           (Some "MIT $100K")]
        "tbmc_prospects.csv" w1
      = (w2, Ok ())
    ∧ files w2 !! "tbmc_prospects.csv"
      = Some [["Student/Team Name"; "School"; "Year"; "Major"; "Competition";
               "Venture Name"; "Email"];
              ["Jane Doe"; "Jane University"; "sophomore"; "Biology"; "Rice";
               ""; ""];
              ["Team Rocket"; ""; "2024"; ""; "MIT $100K"; ""; ""]].
Proof.
  destruct (sink_twice_on_fresh_path
              [Extractor.prospect "Jane Doe"
                 (Extractor.Fields "Jane University" "sophomore" (Some "Biology"))
                 (Some "Rice")]
              [Extractor.prospect "Team Rocket"
                 (Extractor.Fields "" "2024" (Some "")) (Some "MIT $100K")]
              "tbmc_prospects.csv"
              (World ∅ [] (λ _ _, Failure "down") 0 (λ _, Date 2026 11 4) 0))
    as (w1 & w2 & H1 & H2 & _ & Hfile & _).
  - reflexivity.
  - discriminate.
  - discriminate.
  - apply Forall_cons. split; [apply prospect_writable | by apply Forall_nil].
  - apply Forall_cons. split; [apply prospect_writable | by apply Forall_nil].
  - exists w1, w2. split; [exact H1|]. split; [exact H2|]. exact Hfile.
Defined.

End SinkClaims.

(** ** The fetcher and the run over the competitions table *)

Module RunFacts.
Import Program ProgramSpec SinkFacts SinkClaims.

Lemma is_digit_digit n : Str.is_digit (digit n) = true.
Proof.
  unfold digit. pose proof (Nat.mod_upper_bound n 10) as H.
  destruct (n mod 10) as [|[|[|[|[|[|[|[|[|[|k]]]]]]]]]]; try reflexivity.
  lia.
Qed.

(** What [strftime] gives has the form YYYY-MM-DD. *)
Lemma strftime_ymd_form d : ymd_form (strftime d) = true.
Proof.
  cbv [strftime pad4 pad2 String.append ymd_form forallb].
  by rewrite !is_digit_digit.
Qed.

(** A fetch that fails gives [None] and a line on the output. *)
Lemma check_fails url w :
  fetch_fails (requests_get w (requests w) url) →
  ∃ m, check_competition_website url w = (print m (request url w).1, Ok None).
Proof.
  unfold check_competition_website, try_get, request. simpl.
  destruct (requests_get w (requests w) url) as [sc text|e]; simpl.
  - intros Hsc. apply Z.eqb_neq in Hsc. rewrite Hsc. eauto.
  - eauto.
Qed.

(** The fetcher never raises, and gives a text only on status 200. *)
Lemma check_total url w :
  ∃ w' html, check_competition_website url w = (w', Ok html)
             ∧ files w' = files w ∧ requests w' = S (requests w)
             ∧ requests_get w' = requests_get w
             ∧ now w' = now w ∧ readings w' = readings w
             ∧ truth html = has_content (requests_get w (requests w) url).
Proof.
  unfold check_competition_website, try_get, request. simpl.
  destruct (requests_get w (requests w) url) as [sc text|e]; simpl.
  - destruct (sc =? 200)%Z; simpl; eauto 10.
  - eauto 10.
Qed.

Lemma competition_of_3 a b c :
  competition_of [a; b; c]
  = Dict (<["last_checked" := Some c]>
         (<["url" := Some b]> (<["competition_name" := Some a]> ∅))) None.
Proof. reflexivity. Qed.

Lemma competition_writable r :
  length r = 3 → writable competition_fieldnames (competition_of r).
Proof.
  destruct r as [|a [|b [|c [|]]]]; intros Hl; try discriminate Hl.
  split; [done|]. rewrite competition_of_3. simpl.
  rewrite !dom_insert_L, dom_empty_L. set_solver.
Qed.

Lemma row_of_competition r :
  length r = 3 → row_of competition_fieldnames (competition_of r) = r.
Proof. by destruct r as [|a [|b [|c [|]]]]. Qed.

Lemma length_rewritten net n0 today i r :
  length r = 3 → length (rewritten net n0 today i r) = 3.
Proof. by destruct r as [|a [|b [|c [|]]]]. Qed.

Section WithParser.

Variable BeautifulSoup : string → Soup.node.

(** One competition of the table: the run leaves its record with a new
    date when the fetch gave content, and as it was otherwise; it leaves
    the table file alone. *)
Lemma process_one_row a b c w today :
  (∀ n, now w n = today) →
  ∃ w',
    process_one BeautifulSoup (competition_of [a; b; c]) w
    = (w', Ok (competition_of
                 (rewritten (requests_get w) (requests w) today 0 [a; b; c])))
    ∧ files w' !! "competitions.csv" = files w !! "competitions.csv"
    ∧ requests w' = S (requests w) ∧ requests_get w' = requests_get w
    ∧ now w' = now w.
Proof.
  intros Hnow. unfold process_one.
  change (items (competition_of [a; b; c]) !! "competition_name")
    with (Some (Some a)).
  change (items (competition_of [a; b; c]) !! "url") with (Some (Some b)).
  cbv beta iota.
  destruct (check_total (Some b) (print (Checking (Some a)) w))
    as (w1 & html & -> & Hf & Hr & Hg & Hn & Hrd & Hh).
  simpl in Hf, Hr, Hg, Hn, Hrd, Hh. unfold rewritten.
  rewrite Nat.add_0_r, <- Hh.
  destruct (truth html) eqn:Htruth; [|exists w1; by rewrite Hf].
  set (prospects := Extractor.extract_basic_info BeautifulSoup html (Some a)).
  assert (competition_of [a; b; strftime today]
          = setitem "last_checked" (Some (strftime (now w1 (readings w1))))
              (competition_of [a; b; c])) as ->.
  { rewrite Hn, Hnow, !competition_of_3. unfold setitem. simpl.
    by rewrite insert_insert_eq. }
  destruct prospects as [|p ps] eqn:Hp.
  - simpl. eexists. split; [reflexivity|]. simpl. by rewrite Hf.
  - rewrite save_ok;
      [|done | rewrite <- Hp; apply extracted_writable].
    simpl. eexists. split; [reflexivity|]. simpl.
    rewrite lookup_insert_ne by done. by rewrite Hf.
Qed.

Lemma rewritten_shift net n0 today rows :
  imap (rewritten net (S n0) today) rows
  = imap (rewritten net n0 today ∘ S) rows.
Proof.
  apply imap_ext. intros i r _. unfold rewritten, compose.
  by rewrite Nat.add_succ_comm.
Qed.

(** The loop over a table of rows of three fields. *)
Lemma process_rows today rows : ∀ w,
  (∀ n, now w n = today) → Forall (λ r, length r = 3) rows →
  ∃ w',
    process BeautifulSoup (competition_of <$> rows) w
    = (w', Ok (competition_of
                 <$> imap (rewritten (requests_get w) (requests w) today) rows))
    ∧ files w' !! "competitions.csv" = files w !! "competitions.csv".
Proof.
  induction rows as [|r rows IH]; intros w Hnow Hrows; [by eexists|].
  apply Forall_cons in Hrows as [Hr Hrows].
  destruct r as [|a [|b [|c [|]]]]; try done.
  rewrite fmap_cons. cbn [process].
  destruct (process_one_row a b c w today Hnow)
    as (w1 & -> & Hf1 & Hr1 & Hg1 & Hn1).
  destruct (IH w1) as (w2 & -> & Hf2); [by rewrite Hn1 | done |].
  exists w2. split; [|by rewrite Hf2].
  by rewrite Hg1, Hr1, rewritten_shift.
Qed.

End WithParser.

End RunFacts.

Module RunClaims.
Import Program ProgramSpec SinkFacts SinkClaims RunFacts.

Lemma filter_nonblank rows :
  Forall (λ r : row, length r = 3) rows → filter (λ r : row, r ≠ []) rows = rows.
Proof.
  induction 1 as [|r rows Hr _ IH]; [done|].
  rewrite filter_cons_True by (by destruct r). by rewrite IH.
Qed.

(** C1, as the program has it: a run of [main] over a competitions table
    whose rows have the three fields writes the table anew with the same
    header and the same rows in the same order, the name and the url of
    every row as they were; the last field of a row is the date of the day,
    in the form YYYY-MM-DD, when the fetch of its url gave content (status
    200 and a body that is not empty), and is as it was when it did not. *)
Theorem table_rewritten_after_run
    (BeautifulSoup : string → Soup.node) (w : world) (rows : list row)
    (today : date) :
  files w !! "competitions.csv" = Some (competition_fieldnames :: rows) →
  Forall (λ r, length r = 3) rows →
  (∀ n, now w n = today) →
  ∃ w' rows',
    main BeautifulSoup w = (w', Ok ())
    ∧ files w' !! "competitions.csv" = Some (competition_fieldnames :: rows')
    ∧ length rows' = length rows
    ∧ (∀ i competition_name url last_checked,
         rows !! i = Some [competition_name; url; last_checked] →
         rows' !! i
         = Some [competition_name; url;
                 if has_content (requests_get w (requests w + i) (Some url))
                 then strftime today else last_checked])
    ∧ ymd_form (strftime today) = true.
Proof.
  intros Hfile Hrows Hnow.
  exists (main BeautifulSoup w).1,
         (imap (rewritten (requests_get w) (requests w) today) rows).
  unfold main, isfile, read_competition_csv.
  rewrite bool_decide_eq_true_2 by (rewrite Hfile; eauto).
  simpl negb. cbv iota. rewrite Hfile. unfold dictreader.
  rewrite (filter_nonblank _ Hrows).
  destruct (process_rows BeautifulSoup today rows w Hnow Hrows)
    as (w1 & Hrun & _).
  unfold competition_of in Hrun. rewrite Hrun. clear Hrun.
  rewrite (writerows_ok _ _ _ _ [competition_fieldnames]);
    [| by unfold writerow, open_w; simpl; rewrite !lookup_insert_eq |].
  2:{ apply Forall_fmap, Forall_forall.
      intros r (i & r0 & -> & Hi)%elem_of_lookup_imap.
      apply competition_writable, length_rewritten.
      eapply Forall_lookup_1 in Hrows; [exact Hrows | exact Hi]. }
  cbn [fst snd files set_files app]. rewrite lookup_insert_eq.
  split; [done|]. split; [|split; [apply length_imap|split]].
  - do 2 f_equal. rewrite <- list_fmap_compose.
    rewrite <- (list_fmap_id (imap _ rows)) at 2.
    apply Forall_fmap_ext_1.
    apply Forall_forall. intros r (i & r0 & -> & Hi)%elem_of_lookup_imap.
    apply row_of_competition, length_rewritten.
    eapply Forall_lookup_1 in Hrows; [exact Hrows | exact Hi].
  - intros i a b c Hi. by rewrite list_lookup_imap, Hi.
  - apply strftime_ymd_form.
Qed.

Lemma table_rewritten_after_run_witness :
  ∃ w' rows',
    main (λ _, ExtractorSpec.jane_page) fresh_world = (w', Ok ())
    ∧ files w' !! "competitions.csv" = Some (competition_fieldnames :: rows')
    ∧ rows' !! 0 = Some ["Rice Business Plan Competition";
                         "https://rbpc.rice.edu/winners"; "2026-11-04"].
Proof.
  destruct (table_rewritten_after_run
              (λ _, ExtractorSpec.jane_page) fresh_world
              [["Rice Business Plan Competition";
                "https://rbpc.rice.edu/winners"; ""]]
              (Date 2026 11 4))
    as (w' & rows' & Hrun & Hfile & _ & Hrow & _).
  - reflexivity.
  - apply Forall_cons. split; [reflexivity | by apply Forall_nil].
  - reflexivity.
  - exists w', rows'. split; [exact Hrun|]. split; [exact Hfile|].
    apply (Hrow 0 "Rice Business Plan Competition"
                "https://rbpc.rice.edu/winners" "").
    reflexivity.
Defined.

(** C1, as the claim has it, fails: the one row of the table of
    [stale_world] is processed by the run, which prints that it checks it
    and that the site answered 404, and the table written back still holds
    the first of January for it, while the day of the run is the fourth of
    November. *)
Lemma failed_row_keeps_its_date :
  ∃ w',
    main (λ _, Soup.Tag "[document]" None []) stale_world = (w', Ok ())
    ∧ stdout w'
      = [Checking (Some "Rice Business Plan Competition");
         FailedToAccess (Some "https://rbpc.rice.edu/winners") 404]
    ∧ files w' !! "competitions.csv"
      = Some [competition_fieldnames;
              ["Rice Business Plan Competition";
               "https://rbpc.rice.edu/winners"; "2026-01-01"]]
    ∧ strftime (now stale_world 0) = "2026-11-04".
Proof.
  eexists. split; [vm_compute; reflexivity|]. by vm_compute.
Qed.

(** A run in which the fetch gives a page: the prospect is in a new ledger
    under the header, and the row of the table has the date of the day. *)
Example run_on_fresh_world :
  ∃ w',
    main (λ _, ExtractorSpec.jane_page) fresh_world = (w', Ok ())
    ∧ files w' !! "tbmc_prospects.csv"
      = Some [prospect_fieldnames;
              ["Jane Doe"; "Jane University"; "sophomore"; "Biology";
               "Rice Business Plan Competition"; ""; ""]]
    ∧ files w' !! "competitions.csv"
      = Some [competition_fieldnames;
              ["Rice Business Plan Competition";
               "https://rbpc.rice.edu/winners"; "2026-11-04"]]
    ∧ stdout w'
      = [Checking (Some "Rice Business Plan Competition");
         Saved 1 "tbmc_prospects.csv";
         Found 1 (Some "Rice Business Plan Competition")].
Proof.
  eexists. split; [vm_compute; reflexivity|]. by vm_compute.
Qed.

(** C2: when the fetch of a url fails, by an exception or by a status other
    than 200, the fetcher gives [None] to its caller and raises nothing, it
    only prints a line; the competition of that url adds no row to any file,
    its record stays as it was, and the loop goes on with the competitions
    after it. *)
Theorem failed_fetch_is_passed_over (url : pyval) (w : world) :
  fetch_fails (requests_get w (requests w) url) →
  (∃ w1 m,
     check_competition_website url w = (w1, Ok None)
     ∧ files w1 = files w ∧ stdout w1 = stdout w ++ [m])
  ∧ (∀ BeautifulSoup competition competitions competition_name,
       items competition !! "competition_name" = Some competition_name →
       items competition !! "url" = Some url →
       ∃ w',
         process_one BeautifulSoup competition w = (w', Ok competition)
         ∧ files w' = files w
         ∧ process BeautifulSoup (competition :: competitions) w
           = match process BeautifulSoup competitions w' with
             | (w'', Ok done) => (w'', Ok (competition :: done))
             | (w'', Raise e) => (w'', Raise e)
             end).
Proof.
  intros Hfail. split.
  - destruct (check_fails url w Hfail) as [m ->]. by eexists _, m.
  - intros BS competition competitions name Hname Hurl.
    destruct (check_fails url (print (Checking name) w) Hfail) as [m Hcheck].
    assert (process_one BS competition w
            = (print m (request url (print (Checking name) w)).1,
               Ok competition)) as Hone.
    { unfold process_one. by rewrite Hname, Hurl, Hcheck. }
    eexists. split; [exact Hone|]. split; [done|].
    cbn [process]. by rewrite Hone.
Qed.

Lemma failed_fetch_is_passed_over_witness :
  (∃ w1 m,
     check_competition_website (Some "https://rbpc.rice.edu/winners")
       stale_world = (w1, Ok None)
     ∧ files w1 = files stale_world
     ∧ stdout w1 = stdout stale_world ++ [m])
  ∧ ∃ w',
      process_one (λ _, ExtractorSpec.jane_page)
        (competition_of ["Rice Business Plan Competition";
                         "https://rbpc.rice.edu/winners"; "2026-01-01"])
        stale_world
      = (w', Ok (competition_of ["Rice Business Plan Competition";
                                 "https://rbpc.rice.edu/winners";
                                 "2026-01-01"]))
      ∧ files w' = files stale_world.
Proof.
  destruct (failed_fetch_is_passed_over
              (Some "https://rbpc.rice.edu/winners") stale_world)
    as [Hfetch Hloop].
  - discriminate.
  - split; [exact Hfetch|].
    destruct (Hloop (λ _, ExtractorSpec.jane_page)
                (competition_of ["Rice Business Plan Competition";
                                 "https://rbpc.rice.edu/winners";
                                 "2026-01-01"])
                [] (Some "Rice Business Plan Competition"))
      as (w' & Hone & Hfiles & _).
    + reflexivity.
    + reflexivity.
    + exists w'. split; [exact Hone | exact Hfiles].
Defined.

End RunClaims.

(** ** What a pattern takes from the text *)

Module LangFacts.
Import Re ReSpec ReFacts Str StrFacts SearchFacts FieldSpec.

Lemma run_lang p s s' :
  run p s s' →
  ∃ mid, rest s = mid +:+ rest s'
         ∧ pos s' = pos s + String.length mid
         ∧ all_chars (in_cls p) mid = true.
Proof.
  induction 1 as [s|s d t s' Hr Hc _ (mid & Hm & Hp & Ha)].
  - exists "". by rewrite Nat.add_0_r.
  - exists (String d mid). simpl in *. rewrite Hr, Hm, Hp, Hc, Ha.
    split; [done|]. split; [lia | done].
Qed.

(** A match takes a text of the language of its pattern, and moves on by
    its length. *)
Lemma matches_lang r : ∀ s s',
  matches r s s' →
  ∃ mid, rest s = mid +:+ rest s'
         ∧ pos s' = pos s + String.length mid ∧ lang r mid.
Proof.
  induction r as [|c|p| |r1 IH1 r2 IH2|r1 IH1 r2 IH2|r1 IH1|p|i r1 IH1];
    intros s s' H; simpl in H.
  - subst. exists "". by rewrite Nat.add_0_r.
  - destruct H as (d & t & Hr & He & ->). exists (String d "").
    simpl. rewrite Hr. split; [done|]. split; [lia | eauto].
  - destruct H as (d & t & Hr & He & ->). exists (String d "").
    simpl. rewrite Hr. split; [done|]. split; [lia | eauto].
  - destruct H as [_ ->]. exists "". by rewrite Nat.add_0_r.
  - destruct H as (s1 & H1 & H2).
    apply IH1 in H1 as (m1 & Hr1 & Hp1 & Hl1).
    apply IH2 in H2 as (m2 & Hr2 & Hp2 & Hl2).
    exists (m1 +:+ m2). rewrite app_assoc, <- Hr2, <- Hr1, length_app.
    split; [done|]. split; [lia|]. simpl. eauto.
  - destruct H as [H|H]; [apply IH1 in H | apply IH2 in H];
      destruct H as (mid & ? & ? & ?); exists mid; simpl; eauto.
  - destruct H as [H| ->].
    + apply IH1 in H as (mid & ? & ? & ?). exists mid. simpl. eauto.
    + exists "". rewrite Nat.add_0_r. simpl. eauto.
  - destruct H as (d & t & Hr & Hc & H).
    apply run_lang in H as (mid & Hm & Hp & Ha). simpl in *.
    exists (String d mid). rewrite Hr, Hm. simpl. rewrite Hc, Ha.
    split; [done|]. split; [lia | done].
  - destruct H as (s1 & H1 & ->). apply IH1 in H1 as (mid & ? & ? & ?).
    exists mid. simpl. eauto.
Qed.

Lemma substring_exact mid : ∀ post,
  substring 0 (String.length mid) (mid +:+ post) = mid.
Proof.
  induction mid as [|c mid IH]; intros post.
  - by destruct post.
  - rewrite app_cons. simpl. by rewrite IH.
Qed.

Lemma substring_mid pre : ∀ mid post,
  substring (String.length pre) (String.length mid) (pre +:+ mid +:+ post)
  = mid.
Proof.
  induction pre as [|c pre IH]; intros mid post.
  - rewrite app_nil_l. apply substring_exact.
  - rewrite app_cons. simpl. apply IH.
Qed.

(** Between two positions of a text lies what the match took. *)
Lemma span_text r text s s' :
  at_text text s → matches r s s' →
  at_text text s'
  ∧ ∃ mid, substring (pos s) (pos s' - pos s) text = mid ∧ lang r mid.
Proof.
  intros (pre & Ht & Hp) (mid & Hr & Hp' & Hl)%matches_lang. split.
  - exists (pre +:+ mid). by rewrite app_assoc, <- Hr, length_app, Hp', Hp.
  - exists mid. split; [|done].
    rewrite Ht, Hr, Hp', Hp.
    replace (String.length pre + String.length mid - String.length pre)
      with (String.length mid) by lia.
    apply substring_mid.
Qed.

Lemma at_text_set_group text i span s :
  at_text text s → at_text text (set_group i span s).
Proof. done. Qed.

Lemma lang_lits w : ∀ mid, lang (lits w) mid → ieq mid w = true.
Proof.
  induction w as [|c w IH]; intros mid H; simpl in H.
  - by subst.
  - destruct H as (m1 & m2 & -> & (d & -> & He) & H2).
    rewrite app_cons, app_nil_l. simpl. rewrite He, Ascii.eqb_refl.
    by apply IH.
Qed.

(** A successful search, with the place of its match in the text. *)
Lemma search_at_text r text m :
  search r text = Some m →
  ∃ s s',
    at_text text s ∧ groups s = [] ∧ matches r s s'
    ∧ m = Match text (pos s) (pos s') (groups s').
Proof.
  intros (pre & t & s' & Ht & Hm & ->)%search_from_sound.
  eexists _, s'. split; [|split; [|split; [exact Hm|]]]; try done.
  by exists pre.
Qed.

End LangFacts.

(** ** The forms of the fields the scan fills in *)

Module FieldForms.
Import Re ReSpec Str StrFacts SearchFacts PatternFacts LangFacts FieldSpec.
Import Soup Extractor ExtractorSpec ScanFacts.

Lemma first_match_Some {A} (f : string → option A) texts v :
  first_match f texts = Some v → ∃ t, t ∈ texts ∧ f t = Some v.
Proof.
  induction texts as [|t l IH]; simpl; [done|].
  destruct (f t) as [v'|] eqn:Hf.
  - intros [= <-]. exists t. split; [apply list_elem_of_here | done].
  - intros (t' & Hin & Ht')%IH. exists t'.
    split; [by apply list_elem_of_further | done].
Qed.

Lemma year_found_form text year_match :
  search year_re text = Some year_match →
  year_form (default "" (group year_match 0)) = true.
Proof.
  intros (s & s' & Hat & _ & Hm & ->)%search_at_text.
  destruct (span_text _ _ _ _ Hat Hm) as (_ & mid & Hmid & Hl).
  simpl. rewrite Hmid. clear Hmid Hm Hat. unfold year_form.
  assert (∀ w, In w ["freshman"; "sophomore"; "junior"; "senior"] →
               lang (lits w) mid →
               existsb (ieq mid) ["freshman"; "sophomore"; "junior"; "senior"]
               = true) as Hnoun.
  { intros w Hw Hlw. apply existsb_exists. exists w. split; [done|].
    by apply lang_lits. }
  destruct Hl as [Hl|[Hl|[Hl|[Hl|Hl]]]].
  - erewrite Hnoun; [by rewrite orb_true_r | | exact Hl]. simpl. tauto.
  - erewrite Hnoun; [by rewrite orb_true_r | | exact Hl]. simpl. tauto.
  - erewrite Hnoun; [by rewrite orb_true_r | | exact Hl]. simpl. tauto.
  - erewrite Hnoun; [by rewrite orb_true_r | | exact Hl]. simpl. tauto.
  - destruct Hl as (m1 & m2 & -> & -> & m3 & m4 & -> & Hd & ->).
    destruct Hd as (? & ? & -> & (d1 & -> & H1) & ? & ? & -> & (d2 & -> & H2)
                    & ? & ? & -> & (d3 & -> & H3) & ? & ? & ->
                    & (d4 & -> & H4) & ->).
    cbv [String.append]. simpl in *. rewrite H1, H2, H3, H4.
    by rewrite orb_true_r.
Qed.

Lemma major_found_form text major_match :
  search major_re text = Some major_match →
  ∃ v, major_of major_match = Some v ∧ truthy v = true
       ∧ all_chars is_word v = true.
Proof.
  intros (s & s' & Hat & Hg & Hm & ->)%search_at_text.
  unfold major_of, group. cbn [m_groups m_text].
  assert (∀ mid, lang (Plus CWord) mid →
                 truthy mid = true ∧ all_chars is_word mid = true) as Hword.
  { intros mid [Hne Ha]. split; [by destruct mid | done]. }
  destruct Hm as [Hm|Hm].
  - destruct Hm as (s1 & H1 & s2 & H2 & s3 & H3 & s4 & Hp & ->).
    apply (span_text _ _ _ _ Hat) in H1 as [Hat1 _].
    apply (span_text _ _ _ _ Hat1) in H2 as [Hat2 _].
    apply (span_text _ _ _ _ Hat2) in H3 as [Hat3 _].
    apply (span_text _ _ _ _ Hat3) in Hp as (_ & mid & Hmid & Hl).
    apply Hword in Hl as [Ht Ha].
    cbn [groups set_group lookup_group Nat.eqb]. rewrite Hmid.
    cbn [truth]. rewrite Ht. eauto.
  - destruct Hm as (s1 & (s0 & Hp & ->) & Hw).
    apply lits_sound in Hw as (_ & _ & _ & Hgs).
    assert (groups s0 = []) as Hg0.
    { destruct Hp as (d & t' & _ & _ & Hr).
      apply run_inv in Hr as (_ & Hr & _). by rewrite Hr. }
    apply (span_text _ _ _ _ Hat) in Hp as (_ & mid & Hmid & Hl).
    apply Hword in Hl as [Ht Ha].
    rewrite Hgs. cbn [groups set_group]. rewrite Hg0.
    cbn [lookup_group Nat.eqb truth]. rewrite Hmid. eauto.
Qed.

(** The year the scan settles on is nothing, a class noun in any case, or
    four digits. *)
Theorem year_is_noun_or_digits (siblings : list node) :
  year_form (year (scan siblings)) = true.
Proof.
  unfold scan. rewrite scan_texts, fold_year. simpl.
  destruct (first_match year_in _) as [v|] eqn:Hf; [|done].
  apply first_match_Some in Hf as (t & _ & Ht). unfold year_in in Ht.
  destruct (search year_re t) as [m|] eqn:Hs; [|done].
  injection Ht as <-. by apply (year_found_form t).
Qed.

(** The major the scan settles on is a [str] made of word characters only:
    nothing, or one word. *)
Theorem major_is_one_word (siblings : list node) :
  ∃ v, major (scan siblings) = Some v ∧ all_chars is_word v = true.
Proof.
  unfold scan. rewrite scan_texts, fold_major. simpl.
  destruct (first_match major_in _) as [v|] eqn:Hf; [|by exists ""].
  apply first_match_Some in Hf as (t & _ & Ht). unfold major_in in Ht.
  destruct (search major_re t) as [m|] eqn:Hs; [|done].
  injection Ht as <-.
  destruct (major_found_form _ _ Hs) as (v & -> & _ & Ha). eauto.
Qed.

(** The school the scan settles on is nothing, or the whole stripped text
    of one of the siblings, which contains university, college or school
    in some case. *)
Theorem school_is_a_sibling_text (siblings : list node) :
  school (scan siblings) = ""
  ∨ ∃ e, e ∈ siblings ∧ school (scan siblings) = sibling_text e
         ∧ ∃ w, w ∈ ["university"; "college"; "school"]
                ∧ icontains w (sibling_text e).
Proof.
  unfold scan. rewrite scan_texts, fold_school. simpl.
  destruct (first_match school_in _) as [v|] eqn:Hf; [|by left].
  apply first_match_Some in Hf as (t & (e & -> & He)%list_elem_of_fmap & Ht).
  unfold school_in in Ht.
  destruct (test school_re (sibling_text e)) eqn:Hs; [|done].
  injection Ht as <-. right. exists e. split; [done|]. split; [done|].
  by apply school_found.
Qed.

End FieldForms.

(** ** The records of the extractor and where they come from *)

Module ExtractorMore.
Import Re Soup Str StrFacts SearchFacts Extractor ExtractorSpec.
Import ScanFacts ExtractorFacts Program.

Lemma prospect_of_name_Some competition_name name_elem p :
  prospect_of_name competition_name name_elem = Some p →
  skipped (strip (get_text (elem name_elem))) = false
  ∧ p = prospect (strip (get_text (elem name_elem)))
          (scan (next_siblings name_elem)) competition_name.
Proof.
  unfold prospect_of_name. destruct (skipped _); [done|].
  destruct (truthy _); [|done]. by intros [= <-].
Qed.

Lemma extract_basic_info_elem BeautifulSoup html_content competition_name p :
  p ∈ extract_basic_info BeautifulSoup html_content competition_name →
  ∃ html, html_content = Some html
          ∧ p ∈ extract_from_soup (BeautifulSoup html) competition_name.
Proof.
  unfold extract_basic_info. destruct html_content as [html|];
    [|by intros ?%elem_of_nil].
  destruct (truthy html); [eauto | by intros ?%elem_of_nil].
Qed.

(** Every record the extractor gives has the seven columns of the ledger
    and no other key; its competition is the one it was given, its venture
    name and email are empty; its name has at least three characters and
    none of the words winner, award, prize, about; and its school, year and
    major are texts, never [None]. *)
Theorem extracted_record_shape
    (BeautifulSoup : string → node) (html_content competition_name : pyval)
    (p : pydict) :
  p ∈ extract_basic_info BeautifulSoup html_content competition_name →
  dom (items p) = list_to_set prospect_fieldnames
  ∧ surplus p = None
  ∧ items p !! "Competition" = Some competition_name
  ∧ items p !! "Venture Name" = Some (Some "")
  ∧ items p !! "Email" = Some (Some "")
  ∧ ∃ name school year major,
      items p !! "Student/Team Name" = Some (Some name)
      ∧ 3 ≤ len name
      ∧ (∀ w, w ∈ ["winner"; "award"; "prize"; "about"] → ¬ icontains w name)
      ∧ items p !! "School" = Some (Some school)
      ∧ items p !! "Year" = Some (Some year)
      ∧ items p !! "Major" = Some (Some major).
Proof.
  intros (html & _ & Hp)%extract_basic_info_elem.
  apply extract_from_soup_elem in Hp as (sec & l & _ & _ & Hp).
  apply prospect_of_name_Some in Hp as [Hs ->].
  destruct (major_is_str (next_siblings l)) as [v Hv].
  unfold skipped in Hs. apply orb_false_elim in Hs as [Hlen Hkw].
  split; [|split; [done|]].
  { unfold prospect. simpl. by rewrite !dom_insert_L, dom_empty_L. }
  split; [done|]. split; [done|]. split; [done|].
  eexists _, _, _, v. split; [done|]. split; [by apply Nat.ltb_ge in Hlen|].
  split; [exact (proj1 (test_alts_false _ _ _) Hkw)|].
  split; [done|]. split; [done|].
  unfold prospect. simpl. by rewrite <- Hv.
Qed.

Lemma extracted_record_shape_witness :
  items (prospect "Jane Doe" (Fields "Jane University" "sophomore"
                                (Some "Biology")) (Some "Rice"))
    !! "Competition" = Some (Some "Rice").
Proof.
  apply (extracted_record_shape (λ _, jane_page) (Some "<div>...</div>")
           (Some "Rice")).
  assert (extract_basic_info (λ _, jane_page) (Some "<div>...</div>")
            (Some "Rice")
          = [prospect "Jane Doe"
               (Fields "Jane University" "sophomore" (Some "Biology"))
               (Some "Rice")]) as -> by (vm_compute; reflexivity).
  apply list_elem_of_here.
Defined.

Lemma length_omap_le {A B} (f : A → option B) l :
  length (omap f l) ≤ length l.
Proof.
  induction l as [|x l IH]; [done|]. change (omap f l) with (list_omap _ _ f l) in IH.
  simpl. destruct (f x); simpl; lia.
Qed.

Lemma length_names_of section : length (names_of section) ≤ 5.
Proof. unfold names_of, find_all, limited. rewrite length_take. lia. Qed.

(** A region gives at most five records, so a document gives at most five
    times as many as it has regions. *)
Theorem at_most_five_per_region (soup : node) (competition_name : pyval) :
  length (extract_from_soup soup competition_name)
  ≤ 5 * length (winner_sections soup).
Proof.
  unfold extract_from_soup.
  induction (winner_sections soup) as [|section l IH]; [done|].
  rewrite bind_cons, List.length_app. cbn [length].
  pose proof (length_omap_le (prospect_of_name competition_name)
                (names_of section)).
  pose proof (length_names_of section). lia.
Qed.

Lemma find_all_elem names flt limit root l :
  l ∈ find_all names flt limit root →
  l ∈ descendants [] root ∧ has_name names (elem l) = true
  ∧ flt (elem l) = true.
Proof.
  unfold find_all. intros Hl.
  assert (l ∈ filter (λ l, has_name names (elem l) && flt (elem l) = true)
                     (descendants [] root)) as Hf.
  { destruct limit as [n|]; [|done]. simpl in Hl.
    apply elem_of_take in Hl as (i & Hi & _).
    by apply list_elem_of_lookup_2 in Hi. }
  apply list_elem_of_filter in Hf as [Hp Hin].
  apply andb_prop in Hp as [? ?]. done.
Qed.

Lemma winner_sections_container soup section :
  section ∈ winner_sections soup → has_name containers section = true.
Proof.
  unfold winner_sections.
  destruct (elem <$> find_all containers (class_matches winner_re) None soup)
    as [|x xs] eqn:Hc.
  - intros (l & _ & Hp)%list_elem_of_omap. unfold find_parent in Hp.
    by apply find_some in Hp as [_ ?].
  - rewrite <- Hc. intros (l & -> & Hl)%list_elem_of_fmap.
    by apply find_all_elem in Hl as (_ & ? & _).
Qed.

(** Every record comes from a region that is a div, a section or an
    article, and in it from an element h3, h4, strong or b: its name is the
    stripped text of that element and its fields are those of the scan of
    the siblings that follow it. *)
Theorem records_come_from_regions
    (soup : node) (competition_name : pyval) (p : pydict) :
  p ∈ extract_from_soup soup competition_name →
  ∃ section name_elem,
    section ∈ winner_sections soup
    ∧ has_name ["div"; "section"; "article"] section = true
    ∧ name_elem ∈ descendants [] section
    ∧ has_name ["h3"; "h4"; "strong"; "b"] (elem name_elem) = true
    ∧ p = prospect (strip (get_text (elem name_elem)))
            (scan (next_siblings name_elem)) competition_name.
Proof.
  intros (section & l & Hsec & Hl & Hp)%extract_from_soup_elem.
  apply prospect_of_name_Some in Hp as [_ ->].
  unfold names_of in Hl. apply find_all_elem in Hl as (Hin & Hn & _).
  exists section, l. split; [done|].
  split; [by apply winner_sections_container in Hsec | done].
Qed.

Lemma records_come_from_regions_witness :
  ∃ section name_elem,
    section ∈ winner_sections heading_page
    ∧ has_name ["div"; "section"; "article"] section = true
    ∧ name_elem ∈ descendants [] section
    ∧ has_name ["h3"; "h4"; "strong"; "b"] (elem name_elem) = true
    ∧ prospect "Team Rocket"
        (Fields ", class of 2024, Physics major at MIT College" "2024"
                (Some "Physics")) (Some "MIT $100K")
      = prospect (strip (get_text (elem name_elem)))
          (scan (next_siblings name_elem)) (Some "MIT $100K").
Proof.
  apply (records_come_from_regions heading_page (Some "MIT $100K")).
  assert (extract_from_soup heading_page (Some "MIT $100K")
          = [prospect "Team Rocket"
               (Fields ", class of 2024, Physics major at MIT College" "2024"
                       (Some "Physics")) (Some "MIT $100K")]) as ->
    by (vm_compute; reflexivity).
  apply list_elem_of_here.
Defined.

End ExtractorMore.

(** ** The run over any table under the header of the program *)

Module RunMore.
Import Program ProgramSpec RunSpec SinkFacts SinkClaims RunFacts.

Lemma dict_to_list_refused fieldnames d :
  ¬ writable fieldnames d → dict_to_list fieldnames d = Raise ValueError.
Proof.
  intros Hw. unfold dict_to_list. rewrite bool_decide_eq_false_2; [done|].
  intros [Hd Hs]. apply Hw. split; [done|].
  by apply empty_difference_subseteq_L.
Qed.

(** Writing stops at the first record the writer refuses: the rows before
    it are in the file, and the error is raised. *)
Lemma writerows_refused path fieldnames good bad rest : ∀ w old,
  files w !! path = Some old →
  Forall (writable fieldnames) good → ¬ writable fieldnames bad →
  writerows path fieldnames (good ++ bad :: rest) w
  = (set_files (<[path := old ++ (row_of fieldnames <$> good)]> (files w)) w,
     Raise ValueError).
Proof.
  induction good as [|d ds IH]; intros w old Hold Hgood Hbad; simpl.
  - rewrite (dict_to_list_refused _ _ Hbad).
    by rewrite app_nil_r, insert_id, set_files_id.
  - apply Forall_cons in Hgood as [Hd Hds].
    rewrite (dict_to_list_ok _ _ Hd).
    rewrite (IH _ (old ++ [row_of fieldnames d]));
      [|by unfold writerow; simpl; rewrite Hold; apply lookup_insert_eq
       | done | done].
    unfold writerow, set_files. simpl.
    by rewrite insert_insert_eq, <- app_assoc.
Qed.

(** The record of any row under the header of the program: every column
    is bound, to the field of the row or to [None]. *)
Lemma competition_lookups r :
  items (competition_of r) !! "competition_name" = Some (r !! 0)
  ∧ items (competition_of r) !! "url" = Some (r !! 1)
  ∧ items (competition_of r) !! "last_checked" = Some (r !! 2)
  ∧ dom (items (competition_of r)) = list_to_set competition_fieldnames
  ∧ surplus (competition_of r)
    = if 3 <? length r then Some (drop 3 r) else None.
Proof.
  assert (∀ x y z : pyval,
            dom (<["last_checked" := z]>
                   (<["url" := y]> (<["competition_name" := x]>
                      (∅ : gmap string pyval))))
            = list_to_set competition_fieldnames) as Hdom.
  { intros. rewrite !dom_insert_L, dom_empty_L. set_solver. }
  destruct r as [|a [|b [|c [|d r]]]];
    (split; [reflexivity|]); (split; [reflexivity|]);
    (split; [reflexivity|]); (split; [apply Hdom | reflexivity]).
Qed.

Lemma kept_lookups net n0 today i r :
  dom (items (kept net n0 today i r)) = list_to_set competition_fieldnames
  ∧ surplus (kept net n0 today i r) = surplus (competition_of r)
  ∧ items (kept net n0 today i r) !! "competition_name" = Some (r !! 0)
  ∧ items (kept net n0 today i r) !! "url" = Some (r !! 1)
  ∧ items (kept net n0 today i r) !! "last_checked"
    = Some (if has_content (net (n0 + i) (r !! 1))
            then Some (strftime today) else r !! 2).
Proof.
  destruct (competition_lookups r) as (Hn & Hu & Hl & Hd & Hs).
  unfold kept. destruct (has_content _); [|done].
  unfold setitem. cbn [items surplus]. rewrite dom_insert_L, Hd.
  rewrite lookup_insert_eq, !lookup_insert_ne by done.
  split; [set_solver | done].
Qed.

(** A row of at most three fields is written back, padded. *)
Lemma kept_row net n0 today i r :
  length r ≤ 3 →
  dict_to_list competition_fieldnames (kept net n0 today i r)
  = Ok (written_back net n0 today i r).
Proof.
  intros Hlen.
  destruct (kept_lookups net n0 today i r) as (Hd & Hs & Hn & Hu & Hl).
  rewrite dict_to_list_ok.
  - unfold row_of, written_back. simpl. rewrite Hn, Hu, Hl. simpl.
    by destruct (has_content _).
  - split; [|by rewrite Hd].
    rewrite Hs. destruct (competition_lookups r) as (_ & _ & _ & _ & ->).
    by rewrite (proj2 (Nat.ltb_ge 3 (length r))) by lia.
Qed.

(** A row of more than three fields is refused. *)
Lemma kept_refused net n0 today i r :
  3 < length r → ¬ writable competition_fieldnames (kept net n0 today i r).
Proof.
  intros Hlen [Hs _].
  destruct (kept_lookups net n0 today i r) as (_ & Hs' & _).
  destruct (competition_lookups r) as (_ & _ & _ & _ & Hs'').
  rewrite Hs', Hs'' in Hs. by rewrite (proj2 (Nat.ltb_lt 3 (length r))) in Hs.
Qed.

Lemma appended_appended path a b w w1 :
  files w1 = appended path a w →
  appended path b w1 = appended path (a ++ b) w.
Proof.
  intros Hf. unfold appended, ledger_before in *.
  destruct a as [|x a]; simpl.
  - by rewrite Hf.
  - destruct b as [|y b].
    + by rewrite app_nil_r.
    + rewrite Hf, lookup_insert_eq, insert_insert_eq.
      f_equal. by rewrite <- !app_assoc.
Qed.

Section WithParser.

Variable BeautifulSoup : string → Soup.node.

(** What the fetcher gives is what [page] says, in every case. *)
Lemma check_page url w :
  ∃ w',
    check_competition_website url w
    = (w', Ok (page (requests_get w (requests w) url)))
    ∧ files w' = files w ∧ requests w' = S (requests w)
    ∧ requests_get w' = requests_get w
    ∧ now w' = now w ∧ readings w' = readings w.
Proof.
  unfold check_competition_website, try_get, request, page. simpl.
  destruct (requests_get w (requests w) url) as [sc text|e]; simpl.
  - destruct (sc =? 200)%Z; simpl; eauto 10.
  - eauto 10.
Qed.

Lemma has_content_page res : has_content res = truth (page res).
Proof.
  destruct res as [sc text|e]; simpl; [|done]. by destruct (sc =? 200)%Z.
Qed.

Lemma found_no_content res competition_name :
  has_content res = false → found BeautifulSoup res competition_name = [].
Proof.
  rewrite has_content_page. unfold found, Extractor.extract_basic_info.
  destruct (page res) as [html|]; [|done]. simpl. by intros ->.
Qed.

(** One competition of any row: its record, the ledger and the counters
    after it. *)
Lemma process_one_any r w today :
  (∀ n, now w n = today) →
  ∃ w',
    process_one BeautifulSoup (competition_of r) w
    = (w', Ok (kept (requests_get w) (requests w) today 0 r))
    ∧ files w'
      = appended "tbmc_prospects.csv"
          (found BeautifulSoup (requests_get w (requests w + 0) (r !! 1))
                 (r !! 0)) w
    ∧ requests w' = S (requests w) ∧ requests_get w' = requests_get w
    ∧ now w' = now w.
Proof.
  intros Hnow. unfold process_one, kept.
  destruct (competition_lookups r) as (-> & -> & _).
  rewrite Nat.add_0_r.
  destruct (check_page (r !! 1) (print (Checking (r !! 0)) w))
    as (w1 & Hc & Hf & Hr & Hg & Hn & Hrd).
  cbn [print requests_get requests files now readings] in Hc, Hf, Hr, Hg, Hn, Hrd.
  rewrite Hc. cbv beta iota.
  set (res := requests_get w (requests w) (r !! 1)).
  rewrite (has_content_page res).
  destruct (truth (page res)) eqn:Htruth.
  - unfold found.
    destruct (Extractor.extract_basic_info BeautifulSoup (page res) (r !! 0))
      as [|p ps] eqn:Hp.
    + simpl. eexists. split; [by rewrite Hn, Hnow|]. simpl. by rewrite Hf.
    + rewrite save_ok; [|done | rewrite <- Hp; apply extracted_writable].
      simpl. eexists. split; [by rewrite Hn, Hnow|].
      simpl. unfold ledger_before. by rewrite Hf.
  - rewrite found_no_content by (by rewrite has_content_page).
    exists w1. simpl. by rewrite Hf.
Qed.

(** The loop over the records of any rows. *)
Lemma process_any today rows : ∀ w,
  (∀ n, now w n = today) →
  ∃ w',
    process BeautifulSoup (competition_of <$> rows) w
    = (w', Ok (imap (kept (requests_get w) (requests w) today) rows))
    ∧ files w'
      = appended "tbmc_prospects.csv"
          (ledger_rows BeautifulSoup (requests_get w) (requests w) rows) w
    ∧ requests w' = requests w + length rows
    ∧ requests_get w' = requests_get w ∧ now w' = now w.
Proof.
  induction rows as [|r rows IH]; intros w Hnow.
  { exists w. by rewrite Nat.add_0_r. }
  rewrite fmap_cons. cbn [process].
  destruct (process_one_any r w today Hnow)
    as (w1 & -> & Hf1 & Hr1 & Hg1 & Hn1).
  destruct (IH w1) as (w2 & -> & Hf2 & Hr2 & Hg2 & Hn2); [by rewrite Hn1|].
  exists w2. rewrite Hg1, Hr1 in *.
  split; [|split; [|split; [simpl; lia | by rewrite Hg2, Hn2]]].
  - rewrite imap_cons.
    assert (imap (kept (requests_get w) (S (requests w)) today) rows
            = imap (kept (requests_get w) (requests w) today ∘ S) rows)
      as ->; [|done].
    apply imap_ext. intros i x _. unfold kept, compose.
    by rewrite Nat.add_succ_comm.
  - rewrite Hf2. erewrite appended_appended; [|exact Hf1].
    f_equal. unfold ledger_rows. rewrite imap_cons. cbn [concat].
    f_equal. f_equal. apply imap_ext. intros i x _. unfold compose.
    by rewrite Nat.add_succ_comm.
Qed.

End WithParser.

End RunMore.

(** ** Whole runs: tables of any shape *)

Module RunExtras.
Import Program ProgramSpec RunSpec SinkFacts SinkClaims RunFacts RunMore.

Lemma kept_writable net n0 today i r :
  length r ≤ 3 → writable competition_fieldnames (kept net n0 today i r).
Proof.
  intros Hlen.
  destruct (kept_lookups net n0 today i r) as (Hd & Hs & _).
  split; [|by rewrite Hd].
  rewrite Hs. destruct (competition_lookups r) as (_ & _ & _ & _ & ->).
  by rewrite (proj2 (Nat.ltb_ge 3 (length r))) by lia.
Qed.

Lemma kept_row_of net n0 today i r :
  length r ≤ 3 →
  row_of competition_fieldnames (kept net n0 today i r)
  = written_back net n0 today i r.
Proof.
  intros Hlen. pose proof (kept_row net n0 today i r Hlen) as H.
  rewrite dict_to_list_ok in H by (by apply kept_writable).
  congruence.
Qed.

Lemma kept_rows net n0 today rows :
  Forall (λ r, length r ≤ 3) rows →
  Forall (writable competition_fieldnames) (imap (kept net n0 today) rows)
  ∧ row_of competition_fieldnames <$> imap (kept net n0 today) rows
    = imap (written_back net n0 today) rows.
Proof.
  intros Hrows. split.
  - apply Forall_forall. intros d (i & r & -> & Hi)%elem_of_lookup_imap.
    apply kept_writable. eapply Forall_lookup_1 in Hrows; [exact Hrows | exact Hi].
  - rewrite fmap_imap. apply imap_ext. intros i r Hi. unfold compose.
    apply kept_row_of. eapply Forall_lookup_1 in Hrows; [exact Hrows | exact Hi].
Qed.

Section WithParser.

Variable BeautifulSoup : string → Soup.node.

(** A run over a table under the header of the program comes down to the
    loop over its rows that are not blank and the writing back of the
    records the loop leaves. *)
Lemma main_on_table w rows today :
  files w !! "competitions.csv" = Some (competition_fieldnames :: rows) →
  (∀ n, now w n = today) →
  ∃ w1,
    files w1
    = appended "tbmc_prospects.csv"
        (ledger_rows BeautifulSoup (requests_get w) (requests w)
           (filter (λ r, r ≠ []) rows)) w
    ∧ requests w1 = requests w + length (filter (λ r : row, r ≠ []) rows)
    ∧ main BeautifulSoup w
      = writerows "competitions.csv" competition_fieldnames
          (imap (kept (requests_get w) (requests w) today)
                (filter (λ r, r ≠ []) rows))
          (writerow "competitions.csv" competition_fieldnames
             (open_w "competitions.csv" w1)).
Proof.
  intros Hfile Hnow.
  destruct (process_any BeautifulSoup today (filter (λ r, r ≠ []) rows) w Hnow)
    as (w1 & Hrun & Hf & Hr & _).
  exists w1. split; [done|]. split; [done|].
  unfold main, isfile, read_competition_csv.
  rewrite bool_decide_eq_true_2 by (rewrite Hfile; eauto).
  simpl negb. cbv iota. rewrite Hfile. unfold dictreader.
  unfold competition_of in Hrun. by rewrite Hrun.
Qed.

(** The run over a table whose rows have at most three fields. *)
Lemma main_ok w rows today :
  files w !! "competitions.csv" = Some (competition_fieldnames :: rows) →
  Forall (λ r, length r ≤ 3) rows →
  (∀ n, now w n = today) →
  ∃ w',
    main BeautifulSoup w = (w', Ok ())
    ∧ files w'
      = <["competitions.csv" :=
            competition_fieldnames
              :: imap (written_back (requests_get w) (requests w) today)
                      (filter (λ r, r ≠ []) rows)]>
          (appended "tbmc_prospects.csv"
             (ledger_rows BeautifulSoup (requests_get w) (requests w)
                (filter (λ r, r ≠ []) rows)) w)
    ∧ requests w' = requests w + length (filter (λ r : row, r ≠ []) rows).
Proof.
  intros Hfile Hrows Hnow.
  destruct (main_on_table w rows today Hfile Hnow) as (w1 & Hf & Hr & ->).
  assert (Forall (λ r : row, length r ≤ 3) (filter (λ r, r ≠ []) rows))
    as Hrows'.
  { apply Forall_forall. intros r [_ Hin]%list_elem_of_filter.
    by eapply Forall_forall in Hrows. }
  destruct (kept_rows (requests_get w) (requests w) today _ Hrows')
    as [Hw Hrow].
  rewrite (writerows_ok _ _ _ _ [competition_fieldnames]);
    [| by unfold writerow, open_w; simpl; rewrite !lookup_insert_eq | done].
  eexists. split; [reflexivity|].
  cbn [files requests set_files writerow open_w].
  rewrite Hrow, <- Hf, !insert_insert_eq. done.
Qed.

End WithParser.

End RunExtras.

(** ** More about the sink and the fetcher *)

Module SinkMore.
Import Program ProgramSpec RunSpec SinkFacts SinkClaims RunMore.

(** The sink stops at the first record that has a key outside the seven
    columns: it raises [ValueError], the rows of the records before it are
    in the file, after the header when the file is new, and the line that
    reports the saving is not printed. *)
Theorem sink_stops_at_refused_record
    (good : list pydict) (bad : pydict) (rest : list pydict)
    (output_file : string) (w : world) :
  Forall (writable prospect_fieldnames) good →
  ¬ writable prospect_fieldnames bad →
  ∃ w',
    save_prospects_to_csv (good ++ bad :: rest) output_file w
    = (w', Raise ValueError)
    ∧ files w'
      = <[output_file := ledger_before output_file w
                         ++ (row_of prospect_fieldnames <$> good)]> (files w)
    ∧ stdout w' = stdout w.
Proof.
  intros Hgood Hbad. unfold save_prospects_to_csv, ledger_before, isfile.
  destruct (good ++ bad :: rest) as [|p ps] eqn:Hps.
  { by destruct good. }
  rewrite <- Hps. clear Hps.
  destruct (files w !! output_file) as [old|] eqn:Hold.
  - rewrite bool_decide_eq_true_2 by eauto. simpl negb. cbv iota.
    rewrite (writerows_refused _ _ _ _ _ _ old);
      [|by unfold open_a; simpl; rewrite Hold; apply lookup_insert_eq
       | done | done].
    eexists. split; [reflexivity|]. unfold open_a, set_files. simpl.
    by rewrite Hold, insert_insert_eq.
  - rewrite bool_decide_eq_false_2 by (by intros [? ?]). simpl negb. cbv iota.
    rewrite (writerows_refused _ _ _ _ _ _ [prospect_fieldnames]);
      [|by unfold writerow, open_a; simpl; rewrite Hold, !lookup_insert_eq
       | done | done].
    eexists. split; [reflexivity|]. unfold writerow, open_a, set_files. simpl.
    by rewrite Hold, !lookup_insert_eq, !insert_insert_eq.
Qed.

Lemma sink_stops_at_refused_record_witness :
  ∃ w',
    save_prospects_to_csv
      ([Extractor.prospect "Jane Doe"
          (Extractor.Fields "Jane University" "sophomore" (Some "Biology"))
          (Some "Rice")]
       ++ setitem "Phone" (Some "555-0100")
            (Extractor.prospect "Team Rocket"
               (Extractor.Fields "" "2024" (Some "")) (Some "Rice"))
          :: [])
      "tbmc_prospects.csv" empty_world
    = (w', Raise ValueError)
    ∧ files w' !! "tbmc_prospects.csv"
      = Some [prospect_fieldnames;
              ["Jane Doe"; "Jane University"; "sophomore"; "Biology"; "Rice";
               ""; ""]].
Proof.
  destruct (sink_stops_at_refused_record
              [Extractor.prospect "Jane Doe"
                 (Extractor.Fields "Jane University" "sophomore" (Some "Biology"))
                 (Some "Rice")]
              (setitem "Phone" (Some "555-0100")
                 (Extractor.prospect "Team Rocket"
                    (Extractor.Fields "" "2024" (Some "")) (Some "Rice")))
              [] "tbmc_prospects.csv" empty_world)
    as (w' & Hrun & Hfiles & _).
  - apply Forall_cons. split; [apply prospect_writable | by apply Forall_nil].
  - intros [_ Hdom].
    assert ("Phone" ∈ (list_to_set prospect_fieldnames : gset string)) as Hin.
    { apply Hdom. unfold setitem. simpl. rewrite dom_insert_L. set_solver. }
    apply elem_of_list_to_set in Hin.
    repeat (apply elem_of_cons in Hin as [Hin|Hin]; [discriminate Hin|]).
    by apply elem_of_nil in Hin.
  - exists w'. split; [exact Hrun|]. rewrite Hfiles.
    by rewrite lookup_insert_eq.
Defined.

(** The fetcher makes one request and touches no file; on status 200 it
    gives the body, empty or not, and prints nothing; on any other answer
    it gives [None] and prints one line. It raises in no case. *)
Theorem fetcher_gives_body_on_200_only (url : pyval) (w : world) :
  ∃ w' html,
    check_competition_website url w = (w', Ok html)
    ∧ files w' = files w
    ∧ requests w' = S (requests w)
    ∧ ((∃ text, requests_get w (requests w) url = Response 200 text
                ∧ html = Some text ∧ stdout w' = stdout w)
       ∨ (fetch_fails (requests_get w (requests w) url)
          ∧ html = None ∧ ∃ m, stdout w' = stdout w ++ [m])).
Proof.
  unfold check_competition_website, try_get, request. simpl.
  destruct (requests_get w (requests w) url) as [sc text|e]; simpl.
  - destruct (sc =? 200)%Z eqn:Hsc; simpl.
    + apply Z.eqb_eq in Hsc as ->. eexists _, _. split; [done|].
      split; [done|]. split; [done|]. left. eauto.
    + apply Z.eqb_neq in Hsc. eexists _, _. split; [done|].
      split; [done|]. split; [done|]. right. eauto.
  - eexists _, _. split; [done|]. split; [done|]. split; [done|].
    right. eauto.
Qed.

End SinkMore.

(** ** What a run does to the table, to the ledger and to the network *)

Module RunProperties.
Import Program ProgramSpec RunSpec SinkFacts SinkClaims RunFacts RunMore.
Import RunExtras.

(** A run over a table under the header of the program whose rows have at
    most three fields succeeds and writes the table back with its blank
    rows dropped and its short rows padded with empty fields to three; the
    order of the rows is kept, and a row gets the date of the day exactly
    when its fetch gave content. *)
Theorem blank_rows_dropped_short_rows_padded
    (BeautifulSoup : string → Soup.node) (w : world) (rows : list row)
    (today : date) :
  files w !! "competitions.csv" = Some (competition_fieldnames :: rows) →
  Forall (λ r, length r ≤ 3) rows →
  (∀ n, now w n = today) →
  ∃ w',
    main BeautifulSoup w = (w', Ok ())
    ∧ files w' !! "competitions.csv"
      = Some (competition_fieldnames
                :: imap (written_back (requests_get w) (requests w) today)
                        (filter (λ r, r ≠ []) rows)).
Proof.
  intros Hfile Hrows Hnow.
  destruct (main_ok BeautifulSoup w rows today Hfile Hrows Hnow)
    as (w' & Hrun & Hf & _).
  exists w'. split; [done|]. by rewrite Hf, lookup_insert_eq.
Qed.

Lemma blank_rows_dropped_short_rows_padded_witness :
  ∃ w',
    main (λ _, ExtractorSpec.jane_page) ragged_world = (w', Ok ())
    ∧ files w' !! "competitions.csv"
      = Some [competition_fieldnames;
              ["MIT $100K"; "https://mit.example"; ""];
              ["Rice"; "https://rice.example"; "2026-11-04"]].
Proof.
  apply (blank_rows_dropped_short_rows_padded
           (λ _, ExtractorSpec.jane_page) ragged_world
           [[]; ["MIT $100K"; "https://mit.example"];
            ["Rice"; "https://rice.example"; "2026-01-01"]]
           (Date 2026 11 4)).
  - reflexivity.
  - repeat (apply Forall_cons; split; [simpl; lia|]). by apply Forall_nil.
  - reflexivity.
Defined.

(** After such a run the ledger holds what it held, then the rows of the
    records found, competition after competition in the order of the
    table; the header comes first when the ledger did not exist; a run that
    finds nothing leaves the ledger as it was, absent if it was absent;
    and no file other than the table and the ledger is touched. *)
Theorem ledger_after_run
    (BeautifulSoup : string → Soup.node) (w : world) (rows : list row)
    (today : date) :
  files w !! "competitions.csv" = Some (competition_fieldnames :: rows) →
  Forall (λ r, length r ≤ 3) rows →
  (∀ n, now w n = today) →
  ∃ w',
    main BeautifulSoup w = (w', Ok ())
    ∧ files w' !! "tbmc_prospects.csv"
      = match ledger_rows BeautifulSoup (requests_get w) (requests w)
                (filter (λ r, r ≠ []) rows) with
        | [] => files w !! "tbmc_prospects.csv"
        | new => Some (ledger_before "tbmc_prospects.csv" w ++ new)
        end
    ∧ (∀ path, path ≠ "competitions.csv" → path ≠ "tbmc_prospects.csv" →
               files w' !! path = files w !! path).
Proof.
  intros Hfile Hrows Hnow.
  destruct (main_ok BeautifulSoup w rows today Hfile Hrows Hnow)
    as (w' & Hrun & Hf & _).
  exists w'. split; [done|]. rewrite Hf. unfold appended.
  destruct (ledger_rows _ _ _ _) as [|x new]; split.
  - by rewrite lookup_insert_ne.
  - intros path H1 H2. by rewrite lookup_insert_ne.
  - by rewrite lookup_insert_ne, lookup_insert_eq.
  - intros path H1 H2. by rewrite !lookup_insert_ne.
Qed.

Lemma ledger_after_run_witness :
  ∃ w',
    main (λ _, ExtractorSpec.jane_page) ragged_world = (w', Ok ())
    ∧ files w' !! "tbmc_prospects.csv"
      = Some [prospect_fieldnames;
              ["Jane Doe"; "Jane University"; "sophomore"; "Biology"; "Rice";
               ""; ""]].
Proof.
  destruct (ledger_after_run
              (λ _, ExtractorSpec.jane_page) ragged_world
              [[]; ["MIT $100K"; "https://mit.example"];
               ["Rice"; "https://rice.example"; "2026-01-01"]]
              (Date 2026 11 4))
    as (w' & Hrun & Hledger & _).
  - reflexivity.
  - repeat (apply Forall_cons; split; [simpl; lia|]). by apply Forall_nil.
  - reflexivity.
  - exists w'. split; [exact Hrun|]. rewrite Hledger.
    vm_compute. reflexivity.
Defined.

(** Such a run makes one request for each row that is not blank, no more
    and no fewer, whatever the answers are. *)
Theorem one_request_per_row
    (BeautifulSoup : string → Soup.node) (w : world) (rows : list row)
    (today : date) :
  files w !! "competitions.csv" = Some (competition_fieldnames :: rows) →
  Forall (λ r, length r ≤ 3) rows →
  (∀ n, now w n = today) →
  ∃ w',
    main BeautifulSoup w = (w', Ok ())
    ∧ requests w' = requests w + length (filter (λ r : row, r ≠ []) rows).
Proof.
  intros Hfile Hrows Hnow.
  destruct (main_ok BeautifulSoup w rows today Hfile Hrows Hnow)
    as (w' & Hrun & _ & Hr).
  by exists w'.
Qed.

Lemma one_request_per_row_witness :
  ∃ w',
    main (λ _, ExtractorSpec.jane_page) ragged_world = (w', Ok ())
    ∧ requests w' = 2.
Proof.
  apply (one_request_per_row
           (λ _, ExtractorSpec.jane_page) ragged_world
           [[]; ["MIT $100K"; "https://mit.example"];
            ["Rice"; "https://rice.example"; "2026-01-01"]]
           (Date 2026 11 4)).
  - reflexivity.
  - repeat (apply Forall_cons; split; [simpl; lia|]). by apply Forall_nil.
  - reflexivity.
Defined.

Lemma full_rows_not_blank rows :
  Forall (λ r : row, length r = 3) rows →
  filter (λ r : row, r ≠ []) rows = rows.
Proof.
  induction 1 as [|r rows Hr _ IH]; [done|].
  rewrite filter_cons_True by (by destruct r). by rewrite IH.
Qed.

Lemma concat_imap_nil {A B} (f : nat → A → list B) l :
  (∀ i x, f i x = []) → concat (imap f l) = [].
Proof.
  revert f. induction l as [|x l IH]; intros f Hf; [done|].
  rewrite imap_cons. simpl. rewrite Hf. apply IH. intros i y. apply Hf.
Qed.

(** A run in which no fetch gives content, over a table whose rows have
    the three fields, changes no file at all: the table is written back as
    it was and the ledger is not touched. *)
Theorem run_without_content_changes_no_file
    (BeautifulSoup : string → Soup.node) (w : world) (rows : list row)
    (today : date) :
  files w !! "competitions.csv" = Some (competition_fieldnames :: rows) →
  Forall (λ r, length r = 3) rows →
  (∀ n, now w n = today) →
  (∀ n url, has_content (requests_get w n url) = false) →
  ∃ w', main BeautifulSoup w = (w', Ok ()) ∧ files w' = files w.
Proof.
  intros Hfile Hrows Hnow Hnone.
  destruct (main_ok BeautifulSoup w rows today Hfile) as (w' & Hrun & Hf & _);
    [|done|].
  { eapply Forall_impl; [exact Hrows|]. simpl. lia. }
  exists w'. split; [done|]. rewrite Hf.
  rewrite (full_rows_not_blank _ Hrows).
  unfold ledger_rows. rewrite concat_imap_nil
    by (intros; by apply found_no_content).
  unfold appended.
  assert (imap (written_back (requests_get w) (requests w) today) rows = rows)
    as ->; [|by apply insert_id].
  rewrite <- (list_fmap_id rows) at 2. rewrite <- imap_const.
  apply imap_ext. intros i r Hi. unfold written_back. rewrite Hnone.
  eapply Forall_lookup_1 in Hrows; [|exact Hi].
  by destruct r as [|a [|b [|c [|]]]].
Qed.

Lemma run_without_content_changes_no_file_witness :
  ∃ w',
    main (λ _, ExtractorSpec.jane_page) stale_world = (w', Ok ())
    ∧ files w' = files stale_world.
Proof.
  apply (run_without_content_changes_no_file
           (λ _, ExtractorSpec.jane_page) stale_world
           [["Rice Business Plan Competition";
             "https://rbpc.rice.edu/winners"; "2026-01-01"]]
           (Date 2026 11 4)).
  - reflexivity.
  - apply Forall_cons. split; [reflexivity | by apply Forall_nil].
  - reflexivity.
  - reflexivity.
Defined.

(** A row of more than three fields makes the run fail at the very end,
    with [ValueError], after every row was fetched: by then the table file
    has been emptied, and it is left holding the header and only the rows
    that came before the long one. *)
Theorem long_row_truncates_table
    (BeautifulSoup : string → Soup.node) (w : world)
    (rows good : list row) (bad : row) (rest : list row) (today : date) :
  files w !! "competitions.csv" = Some (competition_fieldnames :: rows) →
  filter (λ r, r ≠ []) rows = good ++ bad :: rest →
  Forall (λ r, length r ≤ 3) good → 3 < length bad →
  (∀ n, now w n = today) →
  ∃ w',
    main BeautifulSoup w = (w', Raise ValueError)
    ∧ files w' !! "competitions.csv"
      = Some (competition_fieldnames
                :: imap (written_back (requests_get w) (requests w) today) good)
    ∧ requests w' = requests w + length (good ++ bad :: rest).
Proof.
  intros Hfile Hsplit Hgood Hbad Hnow.
  destruct (main_on_table BeautifulSoup w rows today Hfile Hnow)
    as (w1 & Hf & Hr & ->).
  rewrite Hsplit in *. rewrite imap_app, imap_cons.
  destruct (kept_rows (requests_get w) (requests w) today _ Hgood)
    as [Hw Hrow].
  rewrite (writerows_refused _ _ _ _ _ _ [competition_fieldnames]);
    [| by unfold writerow, open_w; simpl; rewrite !lookup_insert_eq
     | done | by apply kept_refused].
  eexists. split; [reflexivity|].
  cbn [files requests set_files writerow open_w].
  by rewrite Hrow, lookup_insert_eq.
Qed.

Lemma long_row_truncates_table_witness :
  ∃ w',
    main (λ _, ExtractorSpec.jane_page) long_row_world = (w', Raise ValueError)
    ∧ files w' !! "competitions.csv"
      = Some [competition_fieldnames;
              ["Rice"; "https://rice.example"; "2026-01-01"]]
    ∧ requests w' = 3.
Proof.
  apply (long_row_truncates_table
           (λ _, ExtractorSpec.jane_page) long_row_world
           [["Rice"; "https://rice.example"; "2026-01-01"];
            ["MIT $100K"; "https://mit.example"; "2026-01-01"; "note"];
            ["Yale"; "https://yale.example"; "2026-01-01"]]
           [["Rice"; "https://rice.example"; "2026-01-01"]]
           ["MIT $100K"; "https://mit.example"; "2026-01-01"; "note"]
           [["Yale"; "https://yale.example"; "2026-01-01"]]
           (Date 2026 11 4)).
  - reflexivity.
  - reflexivity.
  - apply Forall_cons. split; [simpl; lia | by apply Forall_nil].
  - simpl. lia.
  - reflexivity.
Defined.

End RunProperties.

(** ** Runs on a table that is missing, empty or misnamed *)

Module RunEdges.
Import Program ProgramSpec RunSpec SinkFacts SinkClaims RunFacts RunMore.
Import RunExtras.

Lemma fold_bind_notin (key : string) l : ∀ m : gmap string pyval,
  m !! key = None → key ∉ l.*1 →
  fold_left (λ m kv, <[kv.1 := Some kv.2]> m) l m !! key = None.
Proof.
  induction l as [|[k v] l IH]; intros m Hm Hk; simpl; [done|].
  apply IH.
  - rewrite lookup_insert_ne; [done|]. intros ->. apply Hk. simpl.
    apply list_elem_of_here.
  - intros Hin. apply Hk. simpl. by apply list_elem_of_further.
Qed.

Lemma fold_none_notin (key : string) l : ∀ m : gmap string pyval,
  m !! key = None → key ∉ l →
  fold_left (λ m k, <[k := None]> m) l m !! key = None.
Proof.
  induction l as [|k l IH]; intros m Hm Hk; simpl; [done|].
  apply IH.
  - rewrite lookup_insert_ne; [done|]. intros ->. apply Hk.
    apply list_elem_of_here.
  - intros Hin. apply Hk. by apply list_elem_of_further.
Qed.

Lemma fold_bind_some (key : string) l : ∀ m : gmap string pyval,
  is_Some (m !! key) ∨ key ∈ l.*1 →
  is_Some (fold_left (λ m kv, <[kv.1 := Some kv.2]> m) l m !! key).
Proof.
  induction l as [|[k v] l IH]; intros m H; simpl.
  - destruct H as [H|H]; [done | by apply elem_of_nil in H].
  - apply IH. destruct (decide (k = key)) as [->|Hne].
    + left. rewrite lookup_insert_eq. eauto.
    + destruct H as [H|H].
      * left. by rewrite lookup_insert_ne.
      * right. simpl in H. apply elem_of_cons in H as [H|H]; [congruence|done].
Qed.

Lemma fold_none_some (key : string) l : ∀ m : gmap string pyval,
  is_Some (m !! key) ∨ key ∈ l →
  is_Some (fold_left (λ m k, <[k := None]> m) l m !! key).
Proof.
  induction l as [|k l IH]; intros m H; simpl.
  - destruct H as [H|H]; [done | by apply elem_of_nil in H].
  - apply IH. destruct (decide (k = key)) as [->|Hne].
    + left. rewrite lookup_insert_eq. eauto.
    + destruct H as [H|H].
      * left. by rewrite lookup_insert_ne.
      * right. apply elem_of_cons in H as [H|H]; [congruence|done].
Qed.

Lemma zip_fst_elem (fieldnames : list string) : ∀ (r : row) key,
  key ∈ (zip fieldnames r).*1 → key ∈ fieldnames.
Proof.
  induction fieldnames as [|k l IH]; intros [|x r] key H; simpl in H;
    try by apply elem_of_nil in H.
  apply elem_of_cons in H as [->|H]; [apply list_elem_of_here|].
  apply list_elem_of_further. by apply (IH r).
Qed.

Lemma drop_elem (fieldnames : list string) : ∀ n key,
  key ∈ drop n fieldnames → key ∈ fieldnames.
Proof.
  induction fieldnames as [|k l IH]; intros [|n] key H; simpl in H; try done.
  apply list_elem_of_further. by apply (IH n).
Qed.

Lemma zip_or_drop (fieldnames : list string) : ∀ (r : row) key,
  key ∈ fieldnames →
  key ∈ (zip fieldnames r).*1 ∨ key ∈ drop (length r) fieldnames.
Proof.
  induction fieldnames as [|k l IH]; intros r key H;
    [by apply elem_of_nil in H|].
  destruct r as [|x r]; [by right|]. simpl.
  apply elem_of_cons in H as [->|H]; [left; apply list_elem_of_here|].
  destruct (IH r key H) as [?|?]; [left; by apply list_elem_of_further|by right].
Qed.

(** A record binds the names of the header and no other key. *)
Lemma dictreader_row_lookup fieldnames r key :
  (key ∉ fieldnames → items (dictreader_row fieldnames r) !! key = None)
  ∧ (key ∈ fieldnames →
     is_Some (items (dictreader_row fieldnames r) !! key)).
Proof.
  unfold dictreader_row. cbn [items]. split.
  - intros Hk. apply fold_none_notin.
    + apply fold_bind_notin; [done|]. intros Hin. apply Hk.
      by apply zip_fst_elem in Hin.
    + intros Hin. apply Hk. by apply drop_elem in Hin.
  - intros Hk. apply fold_none_some.
    destruct (zip_or_drop fieldnames r key Hk) as [H|H]; [left|by right].
    apply fold_bind_some. by right.
Qed.

(** A table whose header does not name [competition_name] makes the run
    fail on its first row that is not blank, with [KeyError], before
    anything is printed, fetched or written. When the header names it but
    not [url], the run prints that it checks the first competition and
    fails there, again with nothing fetched and no file changed. *)
Theorem missing_column_raises_key_error
    (BeautifulSoup : string → Soup.node) (w : world)
    (header : row) (rows : list row) (r : row) (rest : list row) :
  files w !! "competitions.csv" = Some (header :: rows) →
  filter (λ r, r ≠ []) rows = r :: rest →
  ("competition_name" ∉ header →
   main BeautifulSoup w = (w, Raise (KeyError "competition_name")))
  ∧ ("competition_name" ∈ header → "url" ∉ header →
     ∃ competition_name,
       main BeautifulSoup w
       = (print (Checking competition_name) w, Raise (KeyError "url"))).
Proof.
  intros Hfile Hrows.
  assert (main BeautifulSoup w
          = match process BeautifulSoup
                    (dictreader_row header <$> r :: rest) w with
            | (w, Raise e) => (w, Raise e)
            | (w, Ok competitions) =>
                writerows "competitions.csv" competition_fieldnames competitions
                  (writerow "competitions.csv" competition_fieldnames
                     (open_w "competitions.csv" w))
            end) as ->.
  { unfold main, isfile, read_competition_csv.
    rewrite bool_decide_eq_true_2 by (rewrite Hfile; eauto).
    simpl negb. cbv iota. rewrite Hfile. unfold dictreader.
    by rewrite Hrows. }
  rewrite fmap_cons. cbn [process]. unfold process_one.
  destruct (dictreader_row_lookup header r "competition_name") as [Hn1 Hn2].
  destruct (dictreader_row_lookup header r "url") as [Hu1 _].
  split.
  - intros Hn. by rewrite (Hn1 Hn).
  - intros Hn Hu. destruct (Hn2 Hn) as [name ->]. rewrite (Hu1 Hu).
    by exists name.
Qed.

Lemma missing_column_raises_key_error_witness :
  main (λ _, ExtractorSpec.jane_page) bad_header_world
  = (bad_header_world, Raise (KeyError "competition_name")).
Proof.
  apply (missing_column_raises_key_error
           (λ _, ExtractorSpec.jane_page) bad_header_world
           ["name"; "url"; "last_checked"]
           [["Rice"; "https://rice.example"; "2026-01-01"]]
           ["Rice"; "https://rice.example"; "2026-01-01"] []).
  - reflexivity.
  - reflexivity.
  - intros Hin.
    repeat (apply elem_of_cons in Hin as [Hin|Hin]; [discriminate Hin|]).
    by apply elem_of_nil in Hin.
Defined.

Lemma main_bootstrap BeautifulSoup w :
  files w !! "competitions.csv" = None →
  main BeautifulSoup w = main BeautifulSoup (bootstrapped w).
Proof.
  intros Hnone.
  assert (files (bootstrapped w) !! "competitions.csv"
          = Some [competition_fieldnames;
                  ["Rice Business Plan Competition";
                   "https://rbpc.rice.edu/winners"; ""];
                  ["MIT $100K"; "https://www.mit100k.org/winners"; ""]])
    as Hboot by apply lookup_insert_eq.
  unfold main at 2. unfold isfile.
  rewrite bool_decide_eq_true_2 by (rewrite Hboot; eauto).
  unfold main, isfile.
  rewrite bool_decide_eq_false_2 by (rewrite Hnone; by intros [? ?]).
  simpl negb. cbv iota.
  assert (print CreatedCompetitions
            (writerow "competitions.csv"
               ["MIT $100K"; "https://www.mit100k.org/winners"; ""]
               (writerow "competitions.csv"
                  ["Rice Business Plan Competition";
                   "https://rbpc.rice.edu/winners"; ""]
                  (writerow "competitions.csv" competition_fieldnames
                     (open_w "competitions.csv" w))))
          = bootstrapped w) as ->; [|done].
  unfold bootstrapped, print, writerow, open_w, set_files.
  cbn [files stdout requests_get requests now readings].
  rewrite !lookup_insert_eq. cbn [default app]. by rewrite !insert_insert_eq.
Qed.

(** When the table is missing, the run makes it, with the header and the
    two competitions the program knows of, and goes over these two at
    once: the run succeeds, makes two requests, and leaves the two rows in
    the table, each with the date of the day if its fetch gave content and
    with an empty date if not. *)
Theorem missing_table_is_made_and_run
    (BeautifulSoup : string → Soup.node) (w : world) (today : date) :
  files w !! "competitions.csv" = None →
  (∀ n, now w n = today) →
  ∃ w',
    main BeautifulSoup w = (w', Ok ())
    ∧ files w' !! "competitions.csv"
      = Some [competition_fieldnames;
              ["Rice Business Plan Competition";
               "https://rbpc.rice.edu/winners";
               if has_content
                    (requests_get w (requests w)
                       (Some "https://rbpc.rice.edu/winners"))
               then strftime today else ""];
              ["MIT $100K"; "https://www.mit100k.org/winners";
               if has_content
                    (requests_get w (S (requests w))
                       (Some "https://www.mit100k.org/winners"))
               then strftime today else ""]]
    ∧ requests w' = requests w + 2.
Proof.
  intros Hnone Hnow. rewrite (main_bootstrap _ _ Hnone).
  destruct (main_ok BeautifulSoup (bootstrapped w)
              [["Rice Business Plan Competition";
                "https://rbpc.rice.edu/winners"; ""];
               ["MIT $100K"; "https://www.mit100k.org/winners"; ""]] today)
    as (w' & Hrun & Hf & Hr).
  - apply lookup_insert_eq.
  - repeat (apply Forall_cons; split; [simpl; lia|]). by apply Forall_nil.
  - exact Hnow.
  - exists w'. split; [done|]. split; [|exact Hr].
    rewrite Hf, lookup_insert_eq.
    cbn [bootstrapped print set_files requests_get requests].
    unfold written_back. simpl. by rewrite Nat.add_0_r, Nat.add_1_r.
Qed.

Lemma missing_table_is_made_and_run_witness :
  ∃ w',
    main (λ _, ExtractorSpec.jane_page) empty_world = (w', Ok ())
    ∧ files w' !! "competitions.csv"
      = Some [competition_fieldnames;
              ["Rice Business Plan Competition";
               "https://rbpc.rice.edu/winners"; "2026-11-04"];
              ["MIT $100K"; "https://www.mit100k.org/winners"; "2026-11-04"]]
    ∧ requests w' = 2.
Proof.
  apply (missing_table_is_made_and_run
           (λ _, ExtractorSpec.jane_page) empty_world (Date 2026 11 4)).
  - reflexivity.
  - reflexivity.
Defined.

Lemma filter_blanks (blanks : list row) :
  Forall (λ r, r = []) blanks → filter (λ r : row, r ≠ []) blanks = [].
Proof.
  induction 1 as [|r l -> _ IH]; [done|].
  rewrite filter_cons_False; [done|]. intros H. by apply H.
Qed.

(** A table file with no data row, be it of zero bytes or a header alone
    or a header followed by blank rows, whatever that header is, is written
    back as the header of the program alone; nothing is fetched, nothing is
    printed and no other file is touched. *)
Theorem table_without_data_rows
    (BeautifulSoup : string → Soup.node) (w : world) (table : list row) :
  files w !! "competitions.csv" = Some table →
  table = [] ∨ (∃ header blanks,
                  table = header :: blanks ∧ Forall (λ r, r = []) blanks) →
  ∃ w',
    main BeautifulSoup w = (w', Ok ())
    ∧ files w' = <["competitions.csv" := [competition_fieldnames]]> (files w)
    ∧ requests w' = requests w
    ∧ stdout w' = stdout w.
Proof.
  intros Hfile Hshape.
  assert (dictreader table = []) as Hnone.
  { destruct Hshape as [->|(header & blanks & -> & Hb)]; [done|].
    unfold dictreader. by rewrite (filter_blanks _ Hb). }
  unfold main, isfile, read_competition_csv.
  rewrite bool_decide_eq_true_2 by (rewrite Hfile; eauto).
  simpl negb. cbv iota. rewrite Hfile, Hnone. cbn [process writerows].
  eexists. split; [reflexivity|].
  unfold writerow, open_w, set_files.
  cbn [files stdout requests_get requests now readings].
  by rewrite lookup_insert_eq, insert_insert_eq.
Qed.

Lemma table_without_data_rows_witness :
  ∃ w',
    main (λ _, ExtractorSpec.jane_page)
      (World {["competitions.csv" := [["name"; "site"]; []]]} []
             (λ _ _, Failure "down") 0 (λ _, Date 2026 11 4) 0)
    = (w', Ok ())
    ∧ files w' !! "competitions.csv" = Some [competition_fieldnames].
Proof.
  destruct (table_without_data_rows
              (λ _, ExtractorSpec.jane_page)
              (World {["competitions.csv" := [["name"; "site"]; []]]} []
                     (λ _ _, Failure "down") 0 (λ _, Date 2026 11 4) 0)
              [["name"; "site"]; []])
    as (w' & Hrun & Hf & _).
  - reflexivity.
  - right. exists ["name"; "site"], [[]]. split; [reflexivity|].
    apply Forall_cons. split; [reflexivity | by apply Forall_nil].
  - exists w'. split; [exact Hrun|]. rewrite Hf. apply lookup_insert_eq.
Defined.

End RunEdges.

(** ** What no run ever does *)

Module RunInvariants.
Import Program ProgramSpec RunSpec SinkFacts SinkClaims RunFacts RunMore.

Section WithParser.

Variable BeautifulSoup : string → Soup.node.

(** The sink, given what the extractor gives, does not raise. *)
Lemma save_extracted html_content competition_name w :
  ∃ w',
    save_prospects_to_csv
      (Extractor.extract_basic_info BeautifulSoup html_content competition_name)
      "tbmc_prospects.csv" w = (w', Ok ()).
Proof.
  destruct (Extractor.extract_basic_info BeautifulSoup html_content
              competition_name) as [|p ps] eqn:Hp.
  - by eexists.
  - rewrite save_ok; [by eexists | done |].
    rewrite <- Hp. apply extracted_writable.
Qed.

(** One competition: what can be raised, and what becomes of the ledger. *)
Lemma process_one_step competition w :
  (∀ w' e, process_one BeautifulSoup competition w = (w', Raise e) →
           e = KeyError "competition_name" ∨ e = KeyError "url")
  ∧ (∀ old, files w !! "tbmc_prospects.csv" = Some old →
            ∃ new, files (process_one BeautifulSoup competition w).1
                     !! "tbmc_prospects.csv" = Some (old ++ new)).
Proof.
  assert (∀ (w0 : world) (old : list row),
            files w0 !! "tbmc_prospects.csv" = Some old →
            ∃ new, files w0 !! "tbmc_prospects.csv" = Some (old ++ new))
    as Hsame.
  { intros w0 old ->. exists []. by rewrite app_nil_r. }
  unfold process_one.
  destruct (items competition !! "competition_name") as [name|];
    [|split; [intros ?? [= <- <-]; by left | apply Hsame]].
  destruct (items competition !! "url") as [url|];
    [|split; [intros ?? [= <- <-]; by right | apply (Hsame (print _ w))]].
  destruct (check_page url (print (Checking name) w))
    as (w1 & -> & Hf & _). cbn [print files] in Hf.
  destruct (truth _);
    [|split; [done | intros old Hold; apply (Hsame w1); by rewrite Hf]].
  set (prospects := Extractor.extract_basic_info _ _ _).
  destruct prospects as [|p ps] eqn:Hp.
  - split; [done|]. intros old Hold.
    apply (Hsame (read_clock (print (NoProspectsFrom name) w1)).1).
    simpl. by rewrite Hf.
  - destruct (save_extracted
                (page (requests_get (print (Checking name) w)
                         (requests (print (Checking name) w)) url))
                name w1) as [w2 Hsave].
    fold prospects in Hsave. rewrite Hp in Hsave.
    split; [by rewrite Hsave|]. intros old Hold.
    destruct (save_appends (p :: ps) "tbmc_prospects.csv" w1 old) as [new Hnew];
      [by rewrite Hf|].
    rewrite Hsave in Hnew |- *. by exists new.
Qed.

(** The loop: the same two things. *)
Lemma process_steps competitions : ∀ w,
  (∀ w' e, process BeautifulSoup competitions w = (w', Raise e) →
           e = KeyError "competition_name" ∨ e = KeyError "url")
  ∧ (∀ old, files w !! "tbmc_prospects.csv" = Some old →
            ∃ new, files (process BeautifulSoup competitions w).1
                     !! "tbmc_prospects.csv" = Some (old ++ new)).
Proof.
  induction competitions as [|c cs IH]; intros w.
  { split; [done|]. intros old Hold. exists []. simpl.
    by rewrite app_nil_r. }
  cbn [process].
  destruct (process_one_step c w) as [Hraise Hledger].
  destruct (process_one BeautifulSoup c w) as [w1 [c'|e]] eqn:Hone;
    cbn [fst] in Hledger.
  - destruct (IH w1) as [Hraise' Hledger'].
    destruct (process BeautifulSoup cs w1) as [w2 [done|e]] eqn:Hrest;
      cbn [fst] in Hledger'.
    + split; [done|]. intros old Hold.
      destruct (Hledger old Hold) as [new1 Hnew1].
      destruct (Hledger' _ Hnew1) as [new2 Hnew2].
      exists (new1 ++ new2). cbn [fst]. by rewrite app_assoc.
    + split; [intros ?? [= <- <-]; by eapply Hraise'|]. intros old Hold.
      destruct (Hledger old Hold) as [new1 Hnew1].
      destruct (Hledger' _ Hnew1) as [new2 Hnew2].
      exists (new1 ++ new2). cbn [fst]. by rewrite app_assoc.
  - split; [intros ?? [= <- <-]; by eapply Hraise|]. exact Hledger.
Qed.

End WithParser.

(** No run takes a row away from the ledger or changes one: whatever the
    table, the network and the clock are, and whether the run succeeds or
    fails, a ledger that exists before the run holds after it what it held,
    followed by what the run added. *)
Theorem run_only_appends_to_ledger
    (BeautifulSoup : string → Soup.node) (w : world) (old : list row) :
  files w !! "tbmc_prospects.csv" = Some old →
  ∃ new,
    files (main BeautifulSoup w).1 !! "tbmc_prospects.csv" = Some (old ++ new).
Proof.
  intros Hold. unfold main.
  set (w0 := if negb (isfile "competitions.csv" w) then _ else w).
  assert (files w0 !! "tbmc_prospects.csv" = Some old) as Hold0.
  { unfold w0. destruct (negb _); [|done]. simpl.
    by rewrite !lookup_insert_ne. }
  destruct (read_competition_csv "competitions.csv" w0) as [cs|e];
    [|exists []; by rewrite app_nil_r].
  destruct (process_steps BeautifulSoup cs w0) as [_ Hledger].
  destruct (Hledger old Hold0) as [new Hnew].
  destruct (process BeautifulSoup cs w0) as [w1 [cs'|e]]; [|by exists new].
  exists new. rewrite writerows_other by done.
  simpl. by rewrite !lookup_insert_ne.
Qed.

Lemma run_only_appends_to_ledger_witness :
  ∃ new,
    files (main (λ _, ExtractorSpec.jane_page)
             (World {["tbmc_prospects.csv" := [["kept"]]]} []
                (λ _ _, Response 200 "<div class='winners-list'>...</div>") 0
                (λ _, Date 2026 11 4) 0)).1
      !! "tbmc_prospects.csv" = Some ([["kept"]] ++ new).
Proof.
  apply (run_only_appends_to_ledger
           (λ _, ExtractorSpec.jane_page)
           (World {["tbmc_prospects.csv" := [["kept"]]]} []
              (λ _ _, Response 200 "<div class='winners-list'>...</div>") 0
              (λ _, Date 2026 11 4) 0)
           [["kept"]]).
  reflexivity.
Defined.

End RunInvariants.
